(** * The JOS kernel monitor (kern/monitor.c)

    A shallow embedding of the command-line kernel monitor: the in-place
    tokenizer and dispatcher [runcmd], the read loop [monitor], and the
    commands [mon_help], [mon_kerninfo], [mon_backtrace] and
    [mon_showmappings].

    Conventions.
    - [uint32_t] and [uintptr_t] values are integers in [0, 2^32); every
      C operation on them is followed by [wrap32].  An [int] is the signed
      reading [to_int32] of such a value.
    - The console, the memory reads of the unwinder, the page-table walks
      and the calls to the other collaborators are recorded, in program
      order, in a trace of [event]s.  A function of the program returns its
      trace together with its C return value.
    - The collaborators that live in other files of the kernel (the symbol
      resolver, the page-table walk, [strtol], [readline], the linker
      symbols) and the stack memory are the fields of the record [Kernel].
    - A loop that need not end ([mon_backtrace] on a cyclic chain) takes a
      bound on its rounds and yields [None] when the bound is reached. *)

From Stdlib Require Import ZArith Lia Bool List String Ascii Sorted.
From stdpp Require Import base option list.
Import ListNotations.

Local Open Scope string_scope.
Local Open Scope list_scope.
Local Open Scope Z_scope.

(** ** Machine integers *)

Definition wrap32 (z : Z) : Z := z mod 2 ^ 32.

(** The value of a 32-bit pattern read as an [int] (two's complement). *)
Definition to_int32 (z : Z) : Z :=
  let u := wrap32 z in if u <? 2 ^ 31 then u else u - 2 ^ 32.

(** ** Constants of the headers

    The monitor takes these from [inc/mmu.h], [inc/memlayout.h] and
    [inc/types.h]; the definitions below carry the values of the x86
    port. *)

(** Modelled from the spec: the page size of [inc/mmu.h].  The spec calls
    the range 0x0 .. 0xFFF "exactly one page", hence 4096 bytes. *)
Definition PGSIZE : Z := 4096.

(** Modelled from the spec: log2 of the page size ([inc/mmu.h]). *)
Definition PGSHIFT : Z := 12.

(** Modelled from the spec: the present bit of a page-table entry
    ([inc/mmu.h]). *)
Definition PTE_P : Z := 1.

(** Modelled from the spec: the writable bit of a page-table entry
    ([inc/mmu.h]). *)
Definition PTE_W : Z := 2.

(** Modelled from the spec: the user-accessible bit of a page-table entry
    ([inc/mmu.h]). *)
Definition PTE_U : Z := 4.

(** Modelled from the spec: [PTE_ADDR] of [inc/mmu.h], the entry with its
    offset bits masked off. *)
Definition PTE_ADDR (pte : Z) : Z := Z.land pte (Z.lnot 4095).

(** Modelled from the spec: [KERNBASE] of [inc/memlayout.h], the virtual
    address at which the kernel is linked. *)
Definition KERNBASE : Z := 4026531840.

(** Modelled from the spec: [ROUNDDOWN] of [inc/types.h], which computes
    in [uint32_t]; the caller casts the result back to the type of the
    first argument. *)
Definition ROUNDDOWN (a n : Z) : Z :=
  let a' := wrap32 a in wrap32 (a' - a' mod n).

(** Modelled from the spec: [ROUNDUP] of [inc/types.h], "round the byte
    span up to a whole number of pages", computed in [uint32_t]. *)
Definition ROUNDUP (a n : Z) : Z :=
  let n' := wrap32 n in ROUNDDOWN (wrap32 (wrap32 a + n' - 1)) n'.

(** ** Observable events *)

(** An argument handed to [cprintf]: an integer or a string pointer. *)
Inductive arg : Type :=
| ArgInt (v : Z)
| ArgStr (s : string).

Inductive event : Type :=
| Cprintf (fmt : string) (args : list arg)   (* cprintf(fmt, args...) *)
| ReadMem (addr : Z)                         (* *(uint32_t * ) addr *)
| DebuginfoEip (eip : Z)                     (* debuginfo_eip(eip, &info) *)
| PgdirWalk (va : Z) (create : Z)            (* pgdir_walk(kern_pgdir, va, create) *)
| Readline (prompt : string)                 (* readline(prompt) *)
| PrintTrapframe.                            (* print_trapframe(tf) *)

Definition trace : Type := list event.

(** The strings the program contains with an escape sequence. *)
Definition nl : string := String "010" EmptyString.

(** ** Characters and C strings *)

Definition NUL : ascii := "000"%char.

Definition is_nul (c : ascii) : bool := Ascii.eqb c NUL.

(** [#define WHITESPACE "\t\r\n "] *)
Definition WHITESPACE : string :=
  String "009" (String "013" (String "010" (String " " EmptyString))).

(** [strchr(s, c) != NULL]: does [c] occur in [s]? *)
Fixpoint strchr (s : string) (c : ascii) : bool :=
  match s with
  | EmptyString => false
  | String d s' => if Ascii.eqb d c then true else strchr s' c
  end.

(** A line buffer: the bytes before the terminator [readline] puts behind
    them.  Reading at or past the end yields that terminator. *)
Definition deref (b : list ascii) (p : nat) : ascii := default NUL (b !! p).

(** The C string that starts at [l]: everything up to the first [NUL]. *)
Fixpoint cstr (l : list ascii) : list ascii :=
  match l with
  | [] => []
  | c :: l' => if is_nul c then [] else c :: cstr l'
  end.

(** The C string a [char * ] into the buffer points to. *)
Definition cstring (b : list ascii) (p : nat) : string :=
  string_of_list_ascii (cstr (drop p b)).

(** ** The format strings of the program *)

Definition fmt_help : string := ("%s - %s" ++ nl)%string.
Definition fmt_backtrace_head : string := ("Stack backtrace:" ++ nl)%string.
Definition fmt_frame : string :=
  ("  ebp %08x  eip %08x  args %08x %08x %08x %08x %08x" ++ nl)%string.
Definition fmt_file_line : string := "         %s:%d:".
Definition fmt_fn_name : string := "  %.*s".
Definition fmt_fn_offset : string := ("+%d" ++ nl)%string.
Definition fmt_not_found : string := ("not found" ++ nl)%string.
Definition fmt_needs_2 : string :=
  ("error: showmappings needs 2 parameters" ++ nl)%string.
Definition fmt_end_lt_start : string := ("error: va_end < va_start" ++ nl)%string.
Definition fmt_mapped : string :=
  ("vapaddr:0x%x --> paddr:0x%x, p = %d, w = %d, u = %d" ++ nl)%string.
Definition fmt_not_mapped : string := ("vaddr:0x%x is not mapped" ++ nl)%string.
Definition fmt_too_many : string := ("Too many arguments (max %d)" ++ nl)%string.
Definition fmt_unknown : string := ("Unknown command '%s'" ++ nl)%string.
Definition fmt_welcome : string :=
  ("Welcome to the JOS kernel monitor!" ++ nl)%string.
Definition fmt_type_help : string :=
  ("Type 'help' for a list of commands." ++ nl)%string.

(** ** The symbol resolver's answer

    [struct Eipdebuginfo] of [kern/kdebug.h]; the function name is a
    pointer into the string table together with a length, the text at the
    pointer does not end where the name ends. *)
Record Eipdebuginfo : Type := {
  eip_file : string;
  eip_line : Z;
  eip_fn_name : string;
  eip_fn_namelen : Z;
  eip_fn_addr : Z;
  eip_fn_narg : Z
}.

(** [#define MAXARGS 16] *)
Definition MAXARGS : Z := 16.

(** The names and descriptions of [commands], in registration order. *)
Definition command_descs : list (string * string) :=
  [ ("help", "Display this list of commands");
    ("kerninfo", "Display information about the kernel");
    ("backtrace", "Display the stack backtrace");
    ("showmappings", "Show the mappings info") ].

(** ** The collaborators

    What the monitor takes from the rest of the kernel ([inc/x86.h],
    [kern/kdebug.c], [lib/string.c], [kern/pmap.c], the linker script,
    [lib/readline.c]) and from the machine. *)
Record Kernel : Type := {
  (** the stack memory: the 32-bit word stored at an address *)
  mem : Z -> Z;
  (** the value [read_ebp()] yields inside [mon_backtrace] *)
  read_ebp : Z;
  (** [debuginfo_eip(eip, &info)]: the return code (0 on success) and the
      record it fills in *)
  debuginfo_eip : Z -> Z * Eipdebuginfo;
  (** [strtol(s, NULL, base)] *)
  strtol : string -> Z -> Z;
  (** [pgdir_walk(kern_pgdir, va, create)]: the entry the returned pointer
      points to, [None] for a null pointer *)
  pgdir_walk : Z -> Z -> option Z;
  (** the linker symbols [_start], [entry], [etext], [edata] and [end] *)
  sym_start : Z;
  sym_entry : Z;
  sym_etext : Z;
  sym_edata : Z;
  sym_end : Z;
  (** [readline("K> ")]: the buffer the [n]-th call returns, [None] for a
      null pointer *)
  readline : nat -> option (list ascii)
}.

Section Monitor.

(** [struct Trapframe]: the monitor only passes it on. *)
Context {Trapframe : Type}.

Variable K : Kernel.

(** [struct Command]; a handler that does not return within its budget of
    loop iterations yields [None]. *)
Record Command : Type := {
  name : string;
  desc : string;
  func : Z -> list string -> option Trapframe -> option (trace * Z)
}.

(** *** help *)

(** The loop prints [commands[i].name] and [commands[i].desc] for every
    entry of the table; [command_descs] lists them, and the table
    [commands] below is built from the same texts. *)
Definition mon_help (argc : Z) (argv : list string) (tf : option Trapframe)
  : option (trace * Z) :=
  Some (map (fun c => Cprintf fmt_help [ArgStr (fst c); ArgStr (snd c)])
            command_descs, 0).

(** *** kerninfo *)

Definition mon_kerninfo (argc : Z) (argv : list string) (tf : option Trapframe)
  : option (trace * Z) :=
  Some ([ Cprintf ("Special kernel symbols:" ++ nl)%string [];
          Cprintf ("  _start                  %08x (phys)" ++ nl)%string
                  [ArgInt (sym_start K)];
          Cprintf ("  entry  %08x (virt)  %08x (phys)" ++ nl)%string
                  [ArgInt (sym_entry K); ArgInt (wrap32 (sym_entry K - KERNBASE))];
          Cprintf ("  etext  %08x (virt)  %08x (phys)" ++ nl)%string
                  [ArgInt (sym_etext K); ArgInt (wrap32 (sym_etext K - KERNBASE))];
          Cprintf ("  edata  %08x (virt)  %08x (phys)" ++ nl)%string
                  [ArgInt (sym_edata K); ArgInt (wrap32 (sym_edata K - KERNBASE))];
          Cprintf ("  end    %08x (virt)  %08x (phys)" ++ nl)%string
                  [ArgInt (sym_end K); ArgInt (wrap32 (sym_end K - KERNBASE))];
          Cprintf ("Kernel executable memory footprint: %dKB" ++ nl)%string
                  [ArgInt (Z.quot (to_int32 (ROUNDUP (to_int32 (sym_end K - sym_entry K)) 1024))
                                  1024)] ],
        0).

(** *** backtrace *)

(** [*(uint32_t * ) addr], with the address computed in [uint32_t]. *)
Definition load (addr : Z) : Z := wrap32 (mem K (wrap32 addr)).

(** The lines printed for the symbol information of a return address. *)
Definition symbol_lines (eip : Z) : trace :=
  let '(rc, info) := debuginfo_eip K eip in
  if rc =? 0 then
    [ Cprintf fmt_file_line [ArgStr (eip_file info); ArgInt (eip_line info)];
      Cprintf fmt_fn_name [ArgInt (eip_fn_namelen info); ArgStr (eip_fn_name info)];
      Cprintf fmt_fn_offset [ArgInt (wrap32 (eip - eip_fn_addr info))] ]
  else
    [ Cprintf fmt_not_found [] ].

(** One iteration of the loop of [mon_backtrace], up to and including the
    read of the saved frame pointer in the loop's increment. *)
Definition frame_body (ebp : Z) : trace :=
  let eip := load (ebp + 4) in
  let arg1 := load (ebp + 8) in
  let arg2 := load (ebp + 12) in
  let arg3 := load (ebp + 16) in
  let arg4 := load (ebp + 20) in
  let arg5 := load (ebp + 24) in
  [ ReadMem (wrap32 (ebp + 4)); ReadMem (wrap32 (ebp + 8));
    ReadMem (wrap32 (ebp + 12)); ReadMem (wrap32 (ebp + 16));
    ReadMem (wrap32 (ebp + 20)); ReadMem (wrap32 (ebp + 24));
    Cprintf fmt_frame [ArgInt ebp; ArgInt eip; ArgInt arg1; ArgInt arg2;
                       ArgInt arg3; ArgInt arg4; ArgInt arg5];
    DebuginfoEip eip ]
  ++ symbol_lines eip
  ++ [ ReadMem (wrap32 ebp) ].

(** [for (ebp = ...; ebp != 0; ebp = *(uint32_t * ) ebp) { ... }]; [fuel]
    bounds the number of times the loop condition is evaluated. *)
Fixpoint backtrace_loop (fuel : nat) (ebp : Z) : option trace :=
  match fuel with
  | O => None
  | S fuel' =>
      if ebp =? 0 then Some []
      else match backtrace_loop fuel' (load ebp) with
           | Some t => Some (frame_body ebp ++ t)
           | None => None
           end
  end.

Definition mon_backtrace (fuel : nat)
    (argc : Z) (argv : list string) (tf : option Trapframe)
  : option (trace * Z) :=
  match backtrace_loop fuel (wrap32 (read_ebp K)) with
  | Some t => Some (Cprintf fmt_backtrace_head [] :: t, 0)
  | None => None
  end.

(** *** showmappings *)

(** The body of the loop of [mon_showmappings] for one address. *)
Definition show_page (va : Z) : trace :=
  [ PgdirWalk va 0;
    match pgdir_walk K va 0 with
    | Some pte =>
        if negb (Z.land pte PTE_P =? 0) then
          Cprintf fmt_mapped
                  [ArgInt va; ArgInt (PTE_ADDR pte); ArgInt (Z.land pte PTE_P);
                   ArgInt (Z.shiftr (Z.land pte PTE_W) 1);
                   ArgInt (Z.shiftr (Z.land pte PTE_U) 2)]
        else Cprintf fmt_not_mapped [ArgInt va]
    | None => Cprintf fmt_not_mapped [ArgInt va]
    end ].

(** [for (i = 0, va = va_start; i < npages; i++, va += PGSIZE) { ... }];
    the loop is entered with [fuel = Z.to_nat (npages - i)], the number of
    values of [i] below [npages]. *)
Fixpoint showmappings_loop (fuel : nat) (i npages va : Z) : trace :=
  match fuel with
  | O => []
  | S fuel' =>
      if i <? npages
      then show_page va ++ showmappings_loop fuel' (i + 1) npages (wrap32 (va + PGSIZE))
      else []
  end.

(** The page count of a range, as the [int npages] of the program. *)
Definition npages_of (va_start va_end : Z) : Z :=
  let npages := to_int32 (ROUNDUP (wrap32 (va_end - va_start + 1)) PGSIZE) in
  Z.shiftr npages PGSHIFT.

Definition mon_showmappings (argc : Z) (argv : list string) (tf : option Trapframe)
  : option (trace * Z) :=
  if negb (argc =? 3) then
    Some ([Cprintf fmt_needs_2 []], 0)
  else
    let va_start := wrap32 (strtol K (nth 1 argv "") 16) in
    let va_end := wrap32 (strtol K (nth 2 argv "") 16) in
    if va_end <? va_start then
      Some ([Cprintf fmt_end_lt_start []], 0)
    else
      let npages := npages_of va_start va_end in
      Some (showmappings_loop (Z.to_nat npages) 0 npages va_start, 0).

(** *** The command table *)

Definition commands (fuel : nat) : list Command :=
  [ {| name := "help"; desc := "Display this list of commands"; func := mon_help |};
    {| name := "kerninfo"; desc := "Display information about the kernel";
       func := mon_kerninfo |};
    {| name := "backtrace"; desc := "Display the stack backtrace";
       func := mon_backtrace fuel |};
    {| name := "showmappings"; desc := "Show the mappings info";
       func := mon_showmappings |} ].

(** *** The command interpreter *)

(** [while ( *buf && strchr(WHITESPACE, *buf)) *buf++ = 0;]  The loop
    stops at the terminator at the latest, that is after at most
    [length b - p] rounds; [fuel] is at least that. *)
Fixpoint gobble (fuel : nat) (b : list ascii) (p : nat) : list ascii * nat :=
  match fuel with
  | O => (b, p)
  | S fuel' =>
      if negb (is_nul (deref b p)) && strchr WHITESPACE (deref b p)
      then gobble fuel' (<[p := NUL]> b) (S p)
      else (b, p)
  end.

(** [while ( *buf && !strchr(WHITESPACE, *buf)) buf++;] *)
Fixpoint scan (fuel : nat) (b : list ascii) (p : nat) : nat :=
  match fuel with
  | O => p
  | S fuel' =>
      if negb (is_nul (deref b p)) && negb (strchr WHITESPACE (deref b p))
      then scan fuel' b (S p)
      else p
  end.

(** How the parsing loop of [runcmd] ends: with the early return, or with
    the carved buffer, [argc] and the pointers [argv[0 .. argc-1]] (offsets
    into the buffer; [argv[argc]] is the null pointer). *)
Inductive parsed : Type :=
| TooMany
| Args (b : list ascii) (argc : Z) (argv : list nat).

(** The [while (1)] loop of [runcmd]; [fuel] bounds its rounds. *)
Fixpoint parse_args (fuel : nat) (b : list ascii) (p : nat)
    (argc : Z) (argv : list nat) : option parsed :=
  match fuel with
  | O => None
  | S fuel' =>
      let '(b1, p1) := gobble (length b) b p in
      if is_nul (deref b1 p1) then Some (Args b1 argc argv)
      else if argc =? MAXARGS - 1 then Some TooMany
      else parse_args fuel' b1 (scan (length b1) b1 p1) (argc + 1) (argv ++ [p1])
  end.

(** The lookup loop of [runcmd]: the first command whose name equals
    [argv[0]] is invoked and its return value propagated. *)
Fixpoint lookup_cmd (cmds : list Command)
    (argc : Z) (argv : list string) (tf : option Trapframe)
  : option (trace * Z) :=
  match cmds with
  | [] => Some ([Cprintf fmt_unknown [ArgStr (nth 0 argv "")]], 0)
  | c :: cmds' =>
      if String.eqb (nth 0 argv "") (name c)   (* strcmp(...) == 0 *)
      then func c argc argv tf
      else lookup_cmd cmds' argc argv tf
  end.

(** [runcmd], over the command table [cmds] (the program's table is
    [commands]).  Every round of the parsing loop but the last consumes a
    byte of the buffer, so [S (length buf)] rounds are enough. *)
Definition runcmd (cmds : list Command) (buf : list ascii) (tf : option Trapframe)
  : option (trace * Z) :=
  match parse_args (S (length buf)) buf 0 0 [] with
  | None => None
  | Some TooMany => Some ([Cprintf fmt_too_many [ArgInt MAXARGS]], 0)
  | Some (Args b argc argv) =>
      if argc =? 0 then Some ([], 0)
      else lookup_cmd cmds argc (map (cstring b) argv) tf
  end.

(** *** The read loop *)

(** What is known of [monitor] after a bounded number of rounds of its
    loop: it left the loop, it is about to read the next line, or a
    handler did not return. *)
Inductive outcome : Type :=
| Exited (t : trace)
| Reading (t : trace)
| Hung (t : trace).

Definition emit (t : trace) (o : outcome) : outcome :=
  match o with
  | Exited t' => Exited (t ++ t')
  | Reading t' => Reading (t ++ t')
  | Hung t' => Hung (t ++ t')
  end.

(** [while (1) { buf = readline("K> "); if (buf != NULL) if (runcmd(buf, tf)
    < 0) break; }], from the [n]-th call of [readline] on, for at most
    [rounds] rounds. *)
Fixpoint monitor_loop (cmds : list Command) (tf : option Trapframe)
    (rounds : nat) (n : nat) : outcome :=
  match rounds with
  | O => Reading []
  | S rounds' =>
      match readline K n with
      | None => emit [Readline "K> "] (monitor_loop cmds tf rounds' (S n))
      | Some buf =>
          match runcmd cmds buf tf with
          | None => Hung [Readline "K> "]
          | Some (t, r) =>
              if r <? 0 then Exited (Readline "K> " :: t)
              else emit (Readline "K> " :: t) (monitor_loop cmds tf rounds' (S n))
          end
      end
  end.

Definition monitor (cmds : list Command) (tf : option Trapframe) (rounds : nat)
  : outcome :=
  emit ([Cprintf fmt_welcome []; Cprintf fmt_type_help []]
        ++ match tf with Some _ => [PrintTrapframe] | None => [] end)
       (monitor_loop cmds tf rounds 0).

End Monitor.

(** ** Notions used to state the properties *)

(** *** Tokens of a line *)

(** The test of the first inner loop of [runcmd]: a whitespace byte. *)
Definition is_space (c : ascii) : bool := negb (is_nul c) && strchr WHITESPACE c.

(** The test of the second inner loop of [runcmd]: a byte of an argument. *)
Definition is_word (c : ascii) : bool :=
  negb (is_nul c) && negb (strchr WHITESPACE c).

Definition flush (cur : list ascii) : list (list ascii) :=
  match cur with [] => [] | _ => [cur] end.

(** The whitespace-separated tokens of a line, read off the text alone:
    [cur] collects the token under way, a whitespace byte ends it, the
    terminator ends the line. *)
Fixpoint tokens_acc (cur l : list ascii) : list (list ascii) :=
  match l with
  | [] => flush cur
  | c :: l' =>
      if is_nul c then flush cur
      else if strchr WHITESPACE c then flush cur ++ tokens_acc [] l'
      else tokens_acc (cur ++ [c]) l'
  end.

Definition tokens (l : list ascii) : list (list ascii) := tokens_acc [] l.

(** A line laid out as tokens, each behind a run of whitespace, followed
    by a trailing part. *)
Definition item : Type := (list ascii * list ascii)%type.

Definition line_of (items : list item) (trail : list ascii) : list ascii :=
  flat_map (fun it => fst it ++ snd it) items ++ trail.

(** The same line once [runcmd] has carved it: whitespace zeroed. *)
Definition carved_of (items : list item) (trail : list ascii) : list ascii :=
  flat_map (fun it => replicate (length (fst it)) NUL ++ snd it) items ++ trail.

(** The offsets at which the tokens of [line_of items _] start, when the
    line starts at offset [base]. *)
Fixpoint offsets (base : nat) (items : list item) : list nat :=
  match items with
  | [] => []
  | it :: items' =>
      (base + length (fst it))%nat
        :: offsets (base + length (fst it) + length (snd it))%nat items'
  end.

(** An item is a run of whitespace, empty at most in front of the first
    token, and a non-empty token. *)
Definition item_ok (first : bool) (it : item) : Prop :=
  Forall (fun c => is_space c = true) (fst it) /\
  Forall (fun c => is_word c = true) (snd it) /\
  snd it <> [] /\ (first = false -> fst it <> []).

Fixpoint items_ok (first : bool) (items : list item) : Prop :=
  match items with
  | [] => True
  | it :: items' => item_ok first it /\ items_ok false items'
  end.

(** The trailing part of a line: whitespace [wn], then [tail], which is
    empty or starts with a [NUL]. *)
Definition trail_ok (wn tail : list ascii) : Prop :=
  Forall (fun c => is_space c = true) wn /\ deref tail 0 = NUL.

(** What [runcmd] does with the tokens of a line, once they are known. *)
Definition run_tokens {Trapframe : Type} (cmds : list (@Command Trapframe))
    (ts : list (list ascii)) (tf : option Trapframe) : option (trace * Z) :=
  match ts with
  | [] => Some ([], 0)
  | _ => lookup_cmd cmds (Z.of_nat (length ts)) (map string_of_list_ascii ts) tf
  end.

(** The early return of [runcmd]. *)
Definition too_many_arguments : option (trace * Z) :=
  Some ([Cprintf fmt_too_many [ArgInt MAXARGS]], 0).

(** *** Lines of the read loop *)

(** The [k]-th line makes a command return a negative value. *)
Definition line_exits {Trapframe : Type} (K : Kernel)
    (cmds : list (@Command Trapframe)) (tf : option Trapframe) (k : nat) : Prop :=
  exists (buf : list ascii) (t : trace) (r : Z),
    readline K k = Some buf /\ runcmd cmds buf tf = Some (t, r) /\ r < 0.

(** The [j]-th call of [readline] yields no line, or a line whose
    processing returns zero or a positive value. *)
Definition line_continues {Trapframe : Type} (K : Kernel)
    (cmds : list (@Command Trapframe)) (tf : option Trapframe) (j : nat) : Prop :=
  readline K j = None
  \/ exists (buf : list ascii) (t : trace) (r : Z),
       readline K j = Some buf /\ runcmd cmds buf tf = Some (t, r) /\ 0 <= r.

(** *** Frame-pointer chains *)

(** The first [n] frame pointers of the chain that starts at [ebp]. *)
Fixpoint frames (K : Kernel) (n : nat) (ebp : Z) : list Z :=
  match n with
  | O => []
  | S n' => ebp :: frames K n' (load K ebp)
  end.

(** Following the saved frame pointers from [ebp] reaches zero after
    exactly [n] frames. *)
Fixpoint chain_ends (K : Kernel) (n : nat) (ebp : Z) : Prop :=
  match n with
  | O => ebp = 0
  | S n' => ebp <> 0 /\ chain_ends K n' (load K ebp)
  end.

(** The addresses a frame is read at: return address, five argument
    words, saved frame pointer. *)
Definition frame_reads (ebp : Z) : list Z :=
  [ wrap32 (ebp + 4); wrap32 (ebp + 8); wrap32 (ebp + 12); wrap32 (ebp + 16);
    wrap32 (ebp + 20); wrap32 (ebp + 24); wrap32 ebp ].

(** The line [mon_backtrace] prints for a frame: the frame pointer, the
    return address read at ebp+4 and the five words read at ebp+8 .. ebp+24. *)
Definition frame_line (K : Kernel) (ebp : Z) : event :=
  Cprintf fmt_frame
          [ ArgInt ebp; ArgInt (load K (ebp + 4)); ArgInt (load K (ebp + 8));
            ArgInt (load K (ebp + 12)); ArgInt (load K (ebp + 16));
            ArgInt (load K (ebp + 20)); ArgInt (load K (ebp + 24)) ].

(** *** Projections of a trace *)

Definition is_frame_line (e : event) : bool :=
  match e with
  | Cprintf fmt _ => String.eqb fmt fmt_frame
  | _ => false
  end.

Definition mem_reads (t : trace) : list Z :=
  flat_map (fun e => match e with ReadMem a => [a] | _ => [] end) t.

(** The virtual addresses handed to [pgdir_walk], in call order. *)
Definition walks (t : trace) : list Z :=
  flat_map (fun e => match e with PgdirWalk va _ => [va] | _ => [] end) t.

(** The per-page lines of [showmappings]. *)
Definition is_page_line (e : event) : bool :=
  match e with
  | Cprintf fmt _ => String.eqb fmt fmt_mapped || String.eqb fmt fmt_not_mapped
  | _ => false
  end.

(** *** The parsing collaborator *)

(** Modelled from the spec: the value of a digit in bases up to 36, for
    [strtol_spec]. *)
Definition digit_of (c : ascii) : option Z :=
  let n := Z.of_nat (nat_of_ascii c) in
  if (48 <=? n) && (n <=? 57) then Some (n - 48)
  else if (97 <=? n) && (n <=? 122) then Some (n - 87)
  else if (65 <=? n) && (n <=? 90) then Some (n - 55)
  else None.

(** Modelled from the spec: the value of a digit string, [None] when a
    byte is not a digit of the base, for [strtol_spec]. *)
Fixpoint digits_value (base acc : Z) (l : list ascii) : option Z :=
  match l with
  | [] => Some acc
  | c :: l' =>
      match digit_of c with
      | Some d => if d <? base then digits_value base (base * acc + d) l' else None
      | None => None
      end
  end.

(** Modelled from the spec: the digits of a number text, that is the text
    without the "0x" a base-16 number may start with (the spec's example is
    "0x1000"), for [strtol_spec]. *)
Definition strip_0x (base : Z) (l : list ascii) : list ascii :=
  match l with
  | "0"%char :: "x"%char :: l' => if base =? 16 then l' else l
  | _ => l
  end.

(** Modelled from the spec: the contract of [strtol] ([lib/string.c]), of
    which the spec says "Parse both as unsigned integers in base 16;
    malformed text parses as zero per the parsing collaborator's
    contract".  A text is well formed when it is a non-empty string of
    digits of the base. *)
Definition strtol_spec (s : string) (base : Z) : Z :=
  match strip_0x base (list_ascii_of_string s) with
  | [] => 0
  | l => match digits_value base 0 l with Some v => v | None => 0 end
  end.

(** Modelled from the spec: which argument texts are "valid hexadecimal
    text" for [strtol_spec]. *)
Definition valid_hex (s : string) : bool :=
  match strip_0x 16 (list_ascii_of_string s) with
  | [] => false
  | l => match digits_value 16 0 l with Some _ => true | None => false end
  end.

(** Modelled from the spec: the text [cprintf] ([lib/printfmt.c]) writes
    for the directive "%.*s" given a length and a string, "function name
    (bounded by its reported length)"; a negative length does not bound. *)
Definition print_bounded (len : Z) (s : string) : string :=
  if len <? 0 then s else substring 0 (Z.to_nat len) s.

(** *** A sample kernel *)

(** A stack of two frames: the frame at 0x1000 was called from the frame
    at 0x2000, whose saved frame pointer is the zero sentinel. *)
Definition sample_mem (a : Z) : Z :=
  if a =? 4096 then 8192            (* saved ebp *)
  else if a =? 4100 then 1048646    (* return address 0x100046 *)
  else if a =? 4104 then 5
  else if a =? 8192 then 0          (* the sentinel *)
  else if a =? 8196 then 1048838    (* return address 0x100106 *)
  else 0.

(** A resolver that knows one function, at 0x100040 .. 0x10007f. *)
Definition sample_debuginfo (eip : Z) : Z * Eipdebuginfo :=
  if (1048640 <=? eip) && (eip <? 1048704) then
    (0, {| eip_file := "kern/init.c"; eip_line := 24;
           eip_fn_name := "test_backtrace:F(0,25)"; eip_fn_namelen := 14;
           eip_fn_addr := 1048640; eip_fn_narg := 1 |})
  else
    (-1, {| eip_file := "<unknown>"; eip_line := 0;
            eip_fn_name := "<unknown>"; eip_fn_namelen := 9;
            eip_fn_addr := eip; eip_fn_narg := 0 |}).

(** A page table that maps the first four megabytes onto themselves,
    present and writable. *)
Definition sample_pgdir_walk (va create : Z) : option Z :=
  if va <? 4194304 then Some (Z.lor (Z.land va (Z.lnot 4095)) 3) else None.

Definition sample_readline (n : nat) : option (list ascii) :=
  match n with
  | 0%nat => Some (list_ascii_of_string "help")
  | 1%nat => None
  | 2%nat => Some (list_ascii_of_string "  showmappings   0x1000 0x2000  ")
  | 3%nat => Some (list_ascii_of_string "quit")
  | _ => None
  end.

Definition sample_kernel : Kernel :=
  {| mem := sample_mem; read_ebp := 4096; debuginfo_eip := sample_debuginfo;
     strtol := strtol_spec; pgdir_walk := sample_pgdir_walk;
     sym_start := 1048588; sym_entry := 4027580428; sym_etext := 4027588097;
     sym_edata := 4027658998; sym_end := 4027661632;
     readline := sample_readline |}.

(** A line of sixteen tokens, the first of them a registered command. *)
Definition sixteen_tokens : list ascii :=
  list_ascii_of_string "help 1 2 3 4 5 6 7 8 9 10 11 12 13 14 15".

(** A table with a command that asks the monitor to exit. *)
Definition quit_table : list (@Command unit) :=
  [ {| name := "quit"; desc := "Leave the monitor";
       func := fun _ _ _ => Some ([], -1) |} ].

(** *** Further projections and relations *)

(** How the parsing loop may change a byte of the buffer: not at all, or
    from a whitespace byte to [NUL]. *)
Definition carve_rel (c d : ascii) : Prop :=
  d = c \/ (is_space c = true /\ d = NUL).

(** The addresses handed to [debuginfo_eip], in call order. *)
Definition resolver_queries (t : trace) : list Z :=
  flat_map (fun e => match e with DebuginfoEip eip => [eip] | _ => [] end) t.


(** What one round of the read loop adds to the trace: the prompt, and
    the output of the line when there is one and its handler returns. *)
Definition line_trace {Trapframe : Type} (K : Kernel)
    (cmds : list (@Command Trapframe)) (tf : option Trapframe) (j : nat) : trace :=
  Readline "K> "
    :: match readline K j with
       | None => []
       | Some buf =>
           match runcmd cmds buf tf with
           | Some (t, _) => t
           | None => []
           end
       end.

(** The last line [mon_kerninfo] prints. *)
Definition fmt_footprint : string :=
  ("Kernel executable memory footprint: %dKB" ++ nl)%string.

(** * Properties *)

(** ** The tokenizer *)

Lemma deref_app_length (pre l : list ascii) :
  deref (pre ++ l) (length pre) = deref l 0.
Proof.
  unfold deref. rewrite lookup_app_r by lia. by rewrite Nat.sub_diag.
Qed.

Lemma gobble_S fuel b p :
  gobble (S fuel) b p
  = if is_space (deref b p) then gobble fuel (<[p := NUL]> b) (S p) else (b, p).
Proof. reflexivity. Qed.

Lemma scan_S fuel b p :
  scan (S fuel) b p = if is_word (deref b p) then scan fuel b (S p) else p.
Proof. reflexivity. Qed.

Lemma gobble_spaces (w : list ascii) : forall (pre rest : list ascii) (fuel : nat),
  Forall (fun c => is_space c = true) w ->
  is_space (deref rest 0) = false ->
  (length w <= fuel)%nat ->
  gobble fuel (pre ++ w ++ rest) (length pre)
  = (pre ++ replicate (length w) NUL ++ rest, (length pre + length w)%nat).
Proof.
  induction w as [|c w IH]; intros pre rest fuel Hw Hrest Hfuel.
  - cbn [app length replicate]. rewrite Nat.add_0_r. destruct fuel as [|fuel]; [done|].
    by rewrite gobble_S, deref_app_length, Hrest.
  - destruct fuel as [|fuel]; [simpl in Hfuel; lia|].
    inversion Hw as [|? ? Hc Hw']; subst.
    rewrite gobble_S, deref_app_length.
    change (deref ((c :: w) ++ rest) 0) with c. rewrite Hc.
    replace (<[length pre:=NUL]> (pre ++ (c :: w) ++ rest))
      with ((pre ++ [NUL]) ++ w ++ rest).
    2:{ rewrite <- (Nat.add_0_r (length pre)) at 1. rewrite insert_app_r.
        by rewrite <- app_assoc. }
    replace (S (length pre)) with (length (pre ++ [NUL])) by (rewrite length_app; simpl; lia).
    rewrite IH; [|done|done|simpl in Hfuel; lia].
    rewrite <- app_assoc. simpl. f_equal. rewrite length_app. simpl. lia.
Qed.

Lemma scan_word (t : list ascii) : forall (pre rest : list ascii) (fuel : nat),
  Forall (fun c => is_word c = true) t ->
  is_word (deref rest 0) = false ->
  (length t <= fuel)%nat ->
  scan fuel (pre ++ t ++ rest) (length pre) = (length pre + length t)%nat.
Proof.
  induction t as [|c t IH]; intros pre rest fuel Ht Hrest Hfuel.
  - cbn [app length]. rewrite Nat.add_0_r. destruct fuel as [|fuel]; [done|].
    by rewrite scan_S, deref_app_length, Hrest.
  - destruct fuel as [|fuel]; [simpl in Hfuel; lia|].
    inversion Ht as [|? ? Hc Ht']; subst.
    rewrite scan_S, deref_app_length.
    change (deref ((c :: t) ++ rest) 0) with c. rewrite Hc.
    replace (pre ++ (c :: t) ++ rest) with ((pre ++ [c]) ++ t ++ rest)
      by (by rewrite <- app_assoc).
    replace (S (length pre)) with (length (pre ++ [c])) by (rewrite length_app; simpl; lia).
    rewrite IH; [|done|done|simpl in Hfuel; lia].
    rewrite length_app. simpl. lia.
Qed.

Lemma is_space_not_word c : is_space c = true -> is_word c = false.
Proof. unfold is_space, is_word. destruct (is_nul c), (strchr WHITESPACE c); done. Qed.

Lemma is_word_not_space c : is_word c = true -> is_space c = false.
Proof. unfold is_space, is_word. destruct (is_nul c), (strchr WHITESPACE c); done. Qed.

Lemma is_word_not_nul c : is_word c = true -> is_nul c = false.
Proof. unfold is_word. destruct (is_nul c); done. Qed.

Lemma is_space_not_nul c : is_space c = true -> is_nul c = false.
Proof. unfold is_space. destruct (is_nul c); done. Qed.

Lemma is_nul_true c : is_nul c = true -> c = NUL.
Proof. unfold is_nul. intros H. by apply Ascii.eqb_eq in H. Qed.

Lemma items_ok_weaken items : items_ok false items -> items_ok true items.
Proof.
  destruct items as [|it items]; [done|]. intros [(?&?&?&?) ?].
  split; [|done]. by repeat split.
Qed.

Lemma line_of_cons it items trail :
  line_of (it :: items) trail = fst it ++ snd it ++ line_of items trail.
Proof. unfold line_of. simpl. by rewrite <- !app_assoc. Qed.

Lemma carved_of_cons it items trail :
  carved_of (it :: items) trail
  = replicate (length (fst it)) NUL ++ snd it ++ carved_of items trail.
Proof. unfold carved_of. simpl. by rewrite <- !app_assoc. Qed.

Lemma trail_head_not_word wn tail :
  trail_ok wn tail -> is_word (deref (wn ++ tail) 0) = false.
Proof.
  intros [Hwn Htail]. destruct wn as [|c wn].
  - simpl. by rewrite Htail.
  - inversion Hwn; subst. change (deref ((c :: wn) ++ tail) 0) with c.
    by apply is_space_not_word.
Qed.

Lemma line_head_not_word items wn tail :
  items_ok false items -> trail_ok wn tail ->
  is_word (deref (line_of items (wn ++ tail)) 0) = false.
Proof.
  destruct items as [|[w t] items]; intros Hit Htr.
  - unfold line_of. simpl. by apply trail_head_not_word.
  - destruct Hit as [(Hw & _ & _ & Hne) _]. rewrite line_of_cons. simpl in *.
    destruct w as [|c w]; [by destruct Hne|].
    inversion Hw; subst.
    change (deref ((c :: w) ++ t ++ line_of items (wn ++ tail)) 0) with c.
    by apply is_space_not_word.
Qed.

Lemma parse_args_S fuel b p argc argv :
  parse_args (S fuel) b p argc argv
  = let '(b1, p1) := gobble (length b) b p in
    if is_nul (deref b1 p1) then Some (Args b1 argc argv)
    else if argc =? MAXARGS - 1 then Some TooMany
    else parse_args fuel b1 (scan (length b1) b1 p1) (argc + 1) (argv ++ [p1]).
Proof. reflexivity. Qed.

Ltac case_leb :=
  match goal with
  | |- context [?a <=? ?b] => destruct (Z.leb_spec a b)
  end.

Lemma parse_items (items : list item) :
  forall (pre : list ascii) (argc : Z) (argv : list nat) (fuel : nat)
         (wn tail : list ascii),
  items_ok true items -> trail_ok wn tail ->
  0 <= argc <= 15 -> (length items < fuel)%nat ->
  parse_args fuel (pre ++ line_of items (wn ++ tail)) (length pre) argc argv
  = if argc + Z.of_nat (length items) <=? 15
    then Some (Args (pre ++ carved_of items (replicate (length wn) NUL ++ tail))
                    (argc + Z.of_nat (length items))
                    (argv ++ offsets (length pre) items))
    else Some TooMany.
Proof.
  induction items as [|[w t] items IH];
    intros pre argc argv fuel wn tail Hit Htr Hargc Hfuel;
    (destruct fuel as [|fuel]; [simpl in Hfuel; lia|]); rewrite parse_args_S.
  - destruct Htr as [Hwn Htail].
    unfold line_of, carved_of. cbn [flat_map app length offsets].
    rewrite gobble_spaces; [|done|by rewrite Htail|rewrite !length_app; lia].
    rewrite (app_assoc pre).
    replace (length pre + length wn)%nat
      with (length (pre ++ replicate (length wn) NUL))
      by (by rewrite length_app, length_replicate).
    rewrite deref_app_length, Htail.
    change (is_nul NUL) with true. cbn iota.
    rewrite Z.add_0_r, app_nil_r.
    case_leb; [done|lia].
  - destruct Hit as [(Hw & Ht & Hne & _) Hrest]. simpl in Hw, Ht, Hne.
    rewrite line_of_cons. cbn [fst snd].
    destruct t as [|c t]; [done|].
    assert (Hc : is_word c = true) by (by inversion Ht).
    rewrite gobble_spaces;
      [|done|by apply is_word_not_space|rewrite !length_app; lia].
    rewrite (app_assoc pre).
    replace (length pre + length w)%nat
      with (length (pre ++ replicate (length w) NUL))
      by (by rewrite length_app, length_replicate).
    rewrite deref_app_length.
    change (deref ((c :: t) ++ line_of items (wn ++ tail)) 0) with c.
    rewrite (is_word_not_nul c Hc).
    change (MAXARGS - 1) with 15.
    destruct (Z.eqb_spec argc 15) as [->|Hne15].
    + case_leb; [simpl in *; lia|done].
    + rewrite scan_word;
        [|done|by apply line_head_not_word|rewrite !length_app; simpl; lia].
      rewrite (app_assoc _ (c :: t)).
      replace (length (pre ++ replicate (length w) NUL) + length (c :: t))%nat
        with (length ((pre ++ replicate (length w) NUL) ++ c :: t))
        by (by rewrite !length_app).
      rewrite IH; [|by apply items_ok_weaken|done|lia|simpl in Hfuel; lia].
      rewrite carved_of_cons. cbn [fst snd offsets length].
      replace (argc + 1 + Z.of_nat (length items))
        with (argc + Z.of_nat (S (length items))) by lia.
      case_leb; [|done].
      rewrite <- !app_assoc. do 3 f_equal.
      rewrite !length_app, length_replicate. simpl. do 2 f_equal. lia.
Qed.

Lemma cstr_word (t rest : list ascii) :
  Forall (fun c => is_word c = true) t -> deref rest 0 = NUL ->
  cstr (t ++ rest) = t.
Proof.
  intros Ht Hrest. induction Ht as [|c t Hc Ht IH].
  - destruct rest as [|d rest]; [done|]. simpl in *.
    change (deref (d :: rest) 0) with d in Hrest. by rewrite Hrest.
  - simpl. rewrite (is_word_not_nul c Hc). by rewrite IH.
Qed.

Lemma carved_head_nul items wn tail :
  items_ok false items -> trail_ok wn tail ->
  deref (carved_of items (replicate (length wn) NUL ++ tail)) 0 = NUL.
Proof.
  destruct items as [|[w t] items]; intros Hit [Hwn Htail].
  - unfold carved_of. simpl. by destruct wn.
  - destruct Hit as [(_ & _ & _ & Hne) _]. rewrite carved_of_cons. simpl in *.
    destruct w as [|c w]; [by destruct Hne|done].
Qed.

Lemma cstring_items (items : list item) : forall (pre wn tail : list ascii),
  items_ok true items -> trail_ok wn tail ->
  map (cstring (pre ++ carved_of items (replicate (length wn) NUL ++ tail)))
      (offsets (length pre) items)
  = map (fun it => string_of_list_ascii (snd it)) items.
Proof.
  induction items as [|[w t] items IH]; intros pre wn tail Hit Htr; [done|].
  destruct Hit as [(Hw & Ht & Hne & _) Hrest]. simpl in Hw, Ht, Hne.
  rewrite carved_of_cons. cbn [fst snd offsets map]. f_equal.
  - unfold cstring. rewrite (app_assoc pre).
    rewrite drop_app_length' by (by rewrite length_app, length_replicate).
    rewrite cstr_word; [done|done|by apply carved_head_nul].
  - rewrite (app_assoc pre), (app_assoc _ t).
    replace (length pre + length w + length t)%nat
      with (length ((pre ++ replicate (length w) NUL) ++ t))
      by (rewrite !length_app, length_replicate; lia).
    apply IH; [by apply items_ok_weaken|done].
Qed.

Lemma tokens_acc_stop cur tail :
  deref tail 0 = NUL -> tokens_acc cur tail = flush cur.
Proof.
  destruct tail as [|d tail]; [done|]. change (deref (d :: tail) 0) with d.
  intros ->. done.
Qed.

Lemma tokens_acc_word (t : list ascii) : forall cur rest,
  Forall (fun c => is_word c = true) t ->
  tokens_acc cur (t ++ rest) = tokens_acc (cur ++ t) rest.
Proof.
  induction t as [|c t IH]; intros cur rest Ht.
  - by rewrite app_nil_r.
  - inversion Ht as [|? ? Hc Ht']; subst. cbn [tokens_acc app].
    unfold is_word in Hc. destruct (is_nul c); [done|].
    destruct (strchr WHITESPACE c); [done|].
    rewrite IH by done. by rewrite <- app_assoc.
Qed.

Lemma tokens_acc_space (w : list ascii) : forall cur rest,
  Forall (fun c => is_space c = true) w -> w <> [] ->
  tokens_acc cur (w ++ rest) = flush cur ++ tokens_acc [] rest.
Proof.
  induction w as [|c w IH]; intros cur rest Hw Hne; [done|].
  inversion Hw as [|? ? Hc Hw']; subst. cbn [tokens_acc app].
  unfold is_space in Hc. destruct (is_nul c); [done|].
  destruct (strchr WHITESPACE c); [|done].
  f_equal. destruct w as [|d w]; [done|]. by rewrite IH.
Qed.

Lemma tokens_acc_trail cur wn tail :
  trail_ok wn tail -> tokens_acc cur (wn ++ tail) = flush cur.
Proof.
  intros [Hwn Htail]. destruct wn as [|c wn].
  - by apply tokens_acc_stop.
  - rewrite tokens_acc_space by done.
    rewrite tokens_acc_stop by done. by rewrite app_nil_r.
Qed.

Lemma tokens_acc_items (items : list item) : forall cur wn tail,
  items_ok false items -> trail_ok wn tail ->
  tokens_acc cur (line_of items (wn ++ tail)) = flush cur ++ map snd items.
Proof.
  induction items as [|[w t] items IH]; intros cur wn tail Hit Htr.
  - unfold line_of. simpl. rewrite app_nil_r. by apply tokens_acc_trail.
  - destruct Hit as [(Hw & Ht & Hne & Hwne) Hrest]. simpl in Hw, Ht, Hne, Hwne.
    rewrite line_of_cons. cbn [fst snd map].
    rewrite tokens_acc_space by auto. f_equal.
    rewrite tokens_acc_word by done. rewrite IH by done.
    simpl. by destruct t.
Qed.

Lemma tokens_line items wn tail :
  items_ok true items -> trail_ok wn tail ->
  tokens (line_of items (wn ++ tail)) = map snd items.
Proof.
  unfold tokens. destruct items as [|[w t] items]; intros Hit Htr.
  - unfold line_of. simpl. by apply tokens_acc_trail.
  - destruct Hit as [(Hw & Ht & Hne & _) Hrest]. simpl in Hw, Ht, Hne.
    rewrite line_of_cons. cbn [fst snd map].
    destruct w as [|c w].
    + simpl. rewrite tokens_acc_word by done.
      rewrite tokens_acc_items by done. simpl. by destruct t.
    + rewrite tokens_acc_space by done. rewrite tokens_acc_word by done.
      rewrite tokens_acc_items by done. simpl. by destruct t.
Qed.

Lemma char_cases c : c = NUL \/ is_space c = true \/ is_word c = true.
Proof.
  unfold is_space, is_word. destruct (is_nul c) eqn:E.
  - left. by apply is_nul_true.
  - right. destruct (strchr WHITESPACE c); auto.
Qed.

Lemma line_decompose (buf : list ascii) :
  exists items wn tail,
    items_ok true items /\ trail_ok wn tail /\ buf = line_of items (wn ++ tail).
Proof.
  induction buf as [|c buf (items & wn & tail & Hit & Htr & ->)].
  - exists [], [], []. by repeat split.
  - destruct (char_cases c) as [-> | [Hc | Hc]].
    + exists [], [], (NUL :: line_of items (wn ++ tail)). by repeat split.
    + destruct items as [|[w t] items].
      * exists [], (c :: wn), tail. destruct Htr as [Hwn Htail].
        split; [done|]. split; [|done]. split; [|done]. by constructor.
      * exists ((c :: w, t) :: items), wn, tail.
        destruct Hit as [(Hw & Ht & Hne & _) Hrest]. simpl in Hw, Ht, Hne.
        split; [|by rewrite !line_of_cons].
        split; [|done]. split; [by constructor|done].
    + destruct items as [|[[|d w] t] items].
      * exists [([], [c])], wn, tail.
        split; [|by rewrite !line_of_cons].
        split; [|done]. split; [done|]. split; [by repeat constructor|done].
      * exists (([], c :: t) :: items), wn, tail.
        destruct Hit as [(Hw & Ht & Hne & _) Hrest]. simpl in Hw, Ht, Hne.
        split; [|by rewrite !line_of_cons].
        split; [|done]. split; [done|]. split; [by constructor|done].
      * exists (([], [c]) :: (d :: w, t) :: items), wn, tail.
        destruct Hit as [(Hw & Ht & Hne & _) Hrest]. simpl in Hw, Ht, Hne.
        split; [|by rewrite !line_of_cons].
        split; [split; [done|]; split; [by repeat constructor|done]|].
        split; [|done]. by repeat split.
Qed.

Lemma items_length (items : list item) trail :
  items_ok true items -> (length items <= length (line_of items trail))%nat.
Proof.
  assert (G : forall first, items_ok first items ->
              (length items <= length (line_of items trail))%nat).
  { induction items as [|[w t] items IH]; intros first Hit; [simpl; lia|].
    destruct Hit as [(_ & _ & Hne & _) Hrest]. simpl in Hne.
    rewrite line_of_cons, !length_app. cbn [fst snd length].
    specialize (IH _ Hrest). destruct t; [done|]. simpl. lia. }
  apply G.
Qed.

(** ** The dispatcher *)

Section Dispatcher.

Context {Trapframe : Type}.
Implicit Types (cmds : list (@Command Trapframe)) (tf : option Trapframe).

Lemma parse_args_layout (items : list item) (wn tail : list ascii) :
  items_ok true items -> trail_ok wn tail ->
  parse_args (S (length (line_of items (wn ++ tail))))
             (line_of items (wn ++ tail)) 0 0 []
  = if Z.of_nat (length items) <=? 15
    then Some (Args (carved_of items (replicate (length wn) NUL ++ tail))
                    (Z.of_nat (length items)) (offsets 0 items))
    else Some TooMany.
Proof.
  intros Hit Htr.
  pose proof (items_length items (wn ++ tail) Hit) as Hlen.
  apply (parse_items items [] 0 []); [done|done|lia|lia].
Qed.

Lemma runcmd_layout cmds (items : list item) (wn tail : list ascii) tf :
  items_ok true items -> trail_ok wn tail ->
  runcmd cmds (line_of items (wn ++ tail)) tf
  = if Z.of_nat (length items) <=? 15
    then run_tokens cmds (map snd items) tf
    else too_many_arguments.
Proof.
  intros Hit Htr. unfold runcmd. rewrite parse_args_layout by done.
  case_leb; [|done].
  destruct items as [|it items]; [done|].
  replace (Z.of_nat (length (it :: items)) =? 0) with false
    by (symmetry; apply Z.eqb_neq; simpl; lia).
  pose proof (cstring_items (it :: items) [] wn tail Hit Htr) as Hstr.
  cbn [app length] in Hstr. rewrite Hstr.
  unfold run_tokens. cbn [map length]. by rewrite List.length_map, List.map_map.
Qed.

(** [runcmd] is the dispatch on the whitespace-separated tokens of the
    line, with the early return from the sixteenth token on. *)
Lemma runcmd_tokens cmds (buf : list ascii) tf :
  runcmd cmds buf tf
  = if Z.of_nat (length (tokens buf)) <=? 15
    then run_tokens cmds (tokens buf) tf
    else too_many_arguments.
Proof.
  destruct (line_decompose buf) as (items & wn & tail & Hit & Htr & ->).
  rewrite runcmd_layout, tokens_line by done. by rewrite List.length_map.
Qed.

(** The parsing loop always ends within its bound, and it never stores
    more than 15 pointers: [argv[argc] = 0] stays inside [argv[MAXARGS]]. *)
Lemma parse_args_returns (buf : list ascii) :
  parse_args (S (length buf)) buf 0 0 [] = Some TooMany
  \/ exists (b : list ascii) (argc : Z) (argv : list nat),
       parse_args (S (length buf)) buf 0 0 [] = Some (Args b argc argv)
       /\ 0 <= argc <= MAXARGS - 1.
Proof.
  destruct (line_decompose buf) as (items & wn & tail & Hit & Htr & ->).
  rewrite parse_args_layout by done. case_leb; [right|by left].
  eexists _, _, _. split; [done|]. unfold MAXARGS. lia.
Qed.

End Dispatcher.

Lemma offsets_length (items : list item) : forall base,
  length (offsets base items) = length items.
Proof. induction items as [|it items IH]; intros base; simpl; [done|by rewrite IH]. Qed.

Lemma items_ok_tokens (items : list item) : forall first,
  items_ok first items ->
  Forall (fun it => snd it <> [] /\ Forall (fun c => is_word c = true) (snd it)) items.
Proof.
  induction items as [|it items IH]; intros first Hit; [by constructor|].
  destruct Hit as [(_ & Ht & Hne & _) Hrest]. constructor; [done|by eapply IH].
Qed.

(** C6: the tokenizer of [runcmd] never produces a zero-length argument
    (every argument is a non-empty string without whitespace, and [argc]
    counts them); leading, trailing and interior runs of whitespace act as
    single separators (a line laid out as tokens behind arbitrary runs of
    whitespace yields exactly these tokens); and the line
    "  showmappings   0x1000 0x2000  " yields argc = 3 and
    argv = ["showmappings"; "0x1000"; "0x2000"], which is what the
    dispatcher hands to the lookup. *)
Theorem runcmd_tokenizer :
  (forall (buf b : list ascii) (argc : Z) (argv : list nat),
      parse_args (S (length buf)) buf 0 0 [] = Some (Args b argc argv) ->
      argc = Z.of_nat (length argv) /\
      Forall (fun p => let a := list_ascii_of_string (cstring b p) in
                       a <> [] /\ Forall (fun c => is_word c = true) a) argv)
  /\ (forall (items : list item) (wn tail : list ascii),
      items_ok true items -> trail_ok wn tail -> (length items <= 15)%nat ->
      exists (b : list ascii) (argv : list nat),
        parse_args (S (length (line_of items (wn ++ tail))))
                   (line_of items (wn ++ tail)) 0 0 []
        = Some (Args b (Z.of_nat (length items)) argv)
        /\ map (cstring b) argv = map (fun it => string_of_list_ascii (snd it)) items)
  /\ (let buf := list_ascii_of_string "  showmappings   0x1000 0x2000  " in
      (exists (b : list ascii) (argv : list nat),
          parse_args (S (length buf)) buf 0 0 [] = Some (Args b 3 argv)
          /\ map (cstring b) argv = ["showmappings"; "0x1000"; "0x2000"])
      /\ forall (Trapframe : Type) (cmds : list (@Command Trapframe)) tf,
          runcmd cmds buf tf
          = lookup_cmd cmds 3 ["showmappings"; "0x1000"; "0x2000"] tf).
Proof.
  split; [|split].
  - intros buf b argc argv.
    destruct (line_decompose buf) as (items & wn & tail & Hit & Htr & ->).
    rewrite parse_args_layout by done. case_leb; [|done].
    intros [= <- <- <-]. split; [by rewrite offsets_length|].
    apply (Forall_map (cstring _)
             (fun s => let a := list_ascii_of_string s in
                       a <> [] /\ Forall (fun c => is_word c = true) a)).
    pose proof (cstring_items items [] wn tail Hit Htr) as Hstr.
    cbn [app length] in Hstr. rewrite Hstr.
    apply Forall_map. eapply Forall_impl; [by eapply items_ok_tokens|].
    intros it [Hne Hw]. cbn zeta. by rewrite list_ascii_of_string_of_list_ascii.
  - intros items wn tail Hit Htr Hlen.
    rewrite parse_args_layout by done. case_leb; [|lia].
    eexists _, _. split; [done|].
    exact (cstring_items items [] wn tail Hit Htr).
  - split.
    + eexists _, _. split; [vm_compute; reflexivity|vm_compute; reflexivity].
    + intros Trapframe cmds tf. rewrite runcmd_tokens. reflexivity.
Qed.

(** C4 (amended): [runcmd] stops at the sixteenth token.  For every line
    with more than 15 whitespace-separated tokens, whatever the command
    table, parsing is abandoned and the only effect is the
    "Too many arguments" message, with return value 0, so no handler runs;
    a line with at most 15 tokens is tokenized completely and handed to the
    lookup with all its tokens. *)
Theorem runcmd_argument_limit :
  forall (Trapframe : Type) (cmds : list (@Command Trapframe))
         (buf : list ascii) (tf : option Trapframe),
    ((15 < length (tokens buf))%nat -> runcmd cmds buf tf = too_many_arguments)
    /\ ((length (tokens buf) <= 15)%nat ->
        runcmd cmds buf tf = run_tokens cmds (tokens buf) tf).
Proof.
  intros Trapframe cmds buf tf. rewrite runcmd_tokens.
  split; intros Hlen; case_leb; (done || lia).
Qed.

(** ** showmappings *)

Lemma wrap32_range z : 0 <= wrap32 z < 2 ^ 32.
Proof. unfold wrap32. apply Z.mod_pos_bound. lia. Qed.

Lemma wrap32_small z : 0 <= z < 2 ^ 32 -> wrap32 z = z.
Proof. unfold wrap32. intros H. by apply Z.mod_small. Qed.

(** From a span of 2^31 bytes on, the [int] page count is not positive. *)
Lemma npages_of_large (s e : Z) :
  0 <= s -> s <= e -> e < 2 ^ 32 -> 2 ^ 31 <= e - s + 1 ->
  npages_of s e <= 0.
Proof.
  intros Hs Hse He Hspan.
  unfold npages_of, ROUNDUP, ROUNDDOWN, to_int32, wrap32, PGSIZE, PGSHIFT.
  rewrite Z.shiftr_div_pow2 by lia.
  change (2 ^ 32) with 4294967296 in *. change (2 ^ 31) with 2147483648 in *.
  change (2 ^ 12) with 4096.
  match goal with |- context [if ?c then _ else _] => destruct c eqn:E end;
    [apply Z.ltb_lt in E|apply Z.ltb_ge in E];
    Z.div_mod_to_equations; lia.
Qed.

(** Below that, the page count is the span rounded up to whole pages. *)
Lemma npages_of_small (s e : Z) :
  0 <= s -> s <= e -> e < 2 ^ 32 -> e - s + 1 <= 2 ^ 31 - 4096 ->
  npages_of s e = (e - s + 1 + 4095) / 4096.
Proof.
  intros Hs Hse He Hspan.
  unfold npages_of, ROUNDUP, ROUNDDOWN, to_int32, wrap32, PGSIZE, PGSHIFT.
  rewrite Z.shiftr_div_pow2 by lia.
  change (2 ^ 32) with 4294967296 in *. change (2 ^ 31) with 2147483648 in *.
  change (2 ^ 12) with 4096.
  match goal with |- context [if ?c then _ else _] => destruct c eqn:E end;
    [apply Z.ltb_lt in E|apply Z.ltb_ge in E];
    Z.div_mod_to_equations; lia.
Qed.

Section Showmappings.

Context {Trapframe : Type}.
Variable K : Kernel.
Implicit Types (tf : option Trapframe) (argv : list string).

Lemma walks_app (t1 t2 : trace) : walks (t1 ++ t2) = walks t1 ++ walks t2.
Proof. unfold walks. apply flat_map_app. Qed.

Lemma walks_show_page (va : Z) : walks (show_page K va) = [va].
Proof.
  unfold show_page, walks. cbn [flat_map app].
  destruct (pgdir_walk K va 0) as [pte|]; [|done].
  by destruct (negb (Z.land pte PTE_P =? 0)).
Qed.

Lemma page_lines_show_page (va : Z) :
  length (List.filter is_page_line (show_page K va)) = 1%nat.
Proof.
  unfold show_page. cbn [List.filter is_page_line].
  destruct (pgdir_walk K va 0) as [pte|]; [|done].
  by destruct (negb (Z.land pte PTE_P =? 0)).
Qed.

(** The loop queries one address per round, a page apart, as long as the
    addresses do not wrap around. *)
Lemma showmappings_loop_walks (n : nat) : forall (i npages va : Z),
  npages - i = Z.of_nat n ->
  (forall k, (k < n)%nat -> 0 <= va + 4096 * Z.of_nat k < 2 ^ 32) ->
  walks (showmappings_loop K n i npages va)
  = map (fun k => va + 4096 * Z.of_nat k) (seq 0 n)
  /\ length (List.filter is_page_line (showmappings_loop K n i npages va)) = n.
Proof.
  induction n as [|n IH]; intros i npages va Hn Hva; [done|].
  cbn [showmappings_loop].
  replace (i <? npages) with true by (symmetry; apply Z.ltb_lt; lia).
  rewrite walks_app, walks_show_page, List.filter_app, length_app,
    page_lines_show_page.
  destruct n as [|n].
  - cbn. split; [|done]. do 2 f_equal. lia.
  - assert (Hnext : wrap32 (va + PGSIZE) = va + 4096).
    { unfold PGSIZE. apply wrap32_small.
      pose proof (Hva 0%nat ltac:(lia)). pose proof (Hva 1%nat ltac:(lia)). lia. }
    rewrite Hnext.
    destruct (IH (i + 1) npages (va + 4096)) as [IHw IHl]; [lia| |].
    { intros k Hk. pose proof (Hva (S k) ltac:(lia)). lia. }
    rewrite IHw, IHl. split; [|done].
    cbn [seq map app]. f_equal; [lia|]. f_equal; [lia|].
    rewrite <- !seq_shift, !List.map_map. apply map_ext. intros k. lia.
Qed.

(** In a range of less than 2^31 - 4095 bytes the inspector queries the
    page table once per page of the rounded-up span, in ascending order of
    addresses, and prints one line per query. *)
Lemma showmappings_small_span argv tf :
  let va_start := wrap32 (strtol K (nth 1 argv "") 16) in
  let va_end := wrap32 (strtol K (nth 2 argv "") 16) in
  va_start <= va_end -> va_end - va_start + 1 <= 2 ^ 31 - 4096 ->
  exists t : trace,
    mon_showmappings K 3 argv tf = Some (t, 0)
    /\ walks t
       = map (fun k => va_start + PGSIZE * Z.of_nat k)
             (seq 0 (Z.to_nat ((va_end - va_start + 1 + (PGSIZE - 1)) / PGSIZE)))
    /\ length (List.filter is_page_line t)
       = Z.to_nat ((va_end - va_start + 1 + (PGSIZE - 1)) / PGSIZE).
Proof.
  intros va_start va_end Hle Hspan.
  pose proof (wrap32_range (strtol K (nth 1 argv "") 16)) as Hs.
  pose proof (wrap32_range (strtol K (nth 2 argv "") 16)) as He.
  fold va_start in Hs. fold va_end in He.
  unfold mon_showmappings. cbn [Z.eqb Pos.eqb negb]. fold va_start va_end.
  replace (va_end <? va_start) with false by (symmetry; apply Z.ltb_ge; lia).
  eexists. split; [reflexivity|].
  rewrite npages_of_small by lia. unfold PGSIZE. change (4096 - 1) with 4095.
  apply showmappings_loop_walks.
  - rewrite Z2Nat.id; [lia|]. apply Z.div_pos; lia.
  - intros k Hk.
    assert (4096 * Z.of_nat k < va_end - va_start + 1); [|lia].
    assert (Z.of_nat k < (va_end - va_start + 1 + 4095) / 4096) by lia.
    Z.div_mod_to_equations. lia.
Qed.

(** C3: with argc = 3 and a parsed end below the parsed start,
    [mon_showmappings] reports the error and nothing else: its whole trace
    is the message "error: va_end < va_start", so [pgdir_walk] is not called
    and no per-page line is printed; it returns 0. *)
Theorem showmappings_rejects_reversed_range argv tf :
  wrap32 (strtol K (nth 2 argv "") 16) < wrap32 (strtol K (nth 1 argv "") 16) ->
  exists t : trace,
    mon_showmappings K 3 argv tf = Some (t, 0)
    /\ t = [Cprintf fmt_end_lt_start []]
    /\ walks t = []
    /\ List.filter is_page_line t = [].
Proof.
  intros Hlt. unfold mon_showmappings. cbn [Z.eqb Pos.eqb negb].
  replace (_ <? _) with true by (symmetry; by apply Z.ltb_lt).
  eexists. split; [reflexivity|]. by repeat split.
Qed.

(** C10: the page count is the 32-bit value end - start + 1, rounded up to
    a page multiple and kept in an [int].  For every range with
    end >= start whose span is 2^31 bytes or more that count is zero or
    negative, so [mon_showmappings] calls [pgdir_walk] not once and prints
    no per-page line: its trace is empty.  For start 0 and end 0xFFFFFFFF
    the span wraps around to 0. *)
Theorem showmappings_large_span_no_walk argv tf :
  let va_start := wrap32 (strtol K (nth 1 argv "") 16) in
  let va_end := wrap32 (strtol K (nth 2 argv "") 16) in
  va_start <= va_end -> 2 ^ 31 <= va_end - va_start + 1 ->
  npages_of va_start va_end <= 0
  /\ mon_showmappings K 3 argv tf = Some ([], 0)
  /\ wrap32 (4294967295 - 0 + 1) = 0
  /\ npages_of 0 4294967295 = 0.
Proof.
  intros va_start va_end Hle Hspan.
  pose proof (wrap32_range (strtol K (nth 1 argv "") 16)) as Hs.
  pose proof (wrap32_range (strtol K (nth 2 argv "") 16)) as He.
  fold va_start in Hs. fold va_end in He.
  assert (Hn : npages_of va_start va_end <= 0) by (apply npages_of_large; lia).
  split; [done|]. split; [|done].
  unfold mon_showmappings. cbn [Z.eqb Pos.eqb negb]. fold va_start va_end.
  replace (va_end <? va_start) with false by (symmetry; apply Z.ltb_ge; lia).
  replace (Z.to_nat (npages_of va_start va_end)) with 0%nat by lia.
  reflexivity.
Qed.

End Showmappings.

(** ** backtrace *)

Section Backtrace.

Context {Trapframe : Type}.
Variable K : Kernel.
Implicit Types (tf : option Trapframe) (argv : list string).

Lemma mem_reads_app (t1 t2 : trace) :
  mem_reads (t1 ++ t2) = mem_reads t1 ++ mem_reads t2.
Proof. unfold mem_reads. apply flat_map_app. Qed.

Lemma symbol_lines_no_read (eip : Z) : mem_reads (symbol_lines K eip) = [].
Proof.
  unfold symbol_lines. destruct (debuginfo_eip K eip) as [rc info].
  by destruct (rc =? 0).
Qed.

Lemma symbol_lines_no_frame_line (eip : Z) :
  List.filter is_frame_line (symbol_lines K eip) = [].
Proof.
  unfold symbol_lines. destruct (debuginfo_eip K eip) as [rc info].
  by destruct (rc =? 0).
Qed.

Lemma frame_body_reads (ebp : Z) : mem_reads (frame_body K ebp) = frame_reads ebp.
Proof.
  unfold frame_body. rewrite !mem_reads_app, symbol_lines_no_read. reflexivity.
Qed.

Lemma frame_body_line (ebp : Z) :
  List.filter is_frame_line (frame_body K ebp) = [frame_line K ebp].
Proof.
  unfold frame_body.
  rewrite !List.filter_app, symbol_lines_no_frame_line. reflexivity.
Qed.

Lemma frames_length (n : nat) : forall ebp, length (frames K n ebp) = n.
Proof. induction n as [|n IH]; intros ebp; simpl; [done|by rewrite IH]. Qed.

(** Along a chain that ends after [n] frames, [n + 1] evaluations of the
    loop condition are enough, and the loop runs its body once per frame. *)
Lemma backtrace_loop_chain (n : nat) : forall (fuel : nat) (ebp : Z),
  chain_ends K n ebp -> (n < fuel)%nat ->
  backtrace_loop K fuel ebp = Some (flat_map (frame_body K) (frames K n ebp)).
Proof.
  induction n as [|n IH]; intros fuel ebp Hchain Hfuel;
    (destruct fuel as [|fuel]; [lia|]); cbn [backtrace_loop frames flat_map].
  - simpl in Hchain. subst ebp. reflexivity.
  - destruct Hchain as [Hne Hchain].
    replace (ebp =? 0) with false by (symmetry; by apply Z.eqb_neq).
    rewrite (IH fuel) by (done || lia). reflexivity.
Qed.

Lemma mon_backtrace_chain (n fuel : nat) (argc : Z) argv tf :
  chain_ends K n (wrap32 (read_ebp K)) -> (n < fuel)%nat ->
  mon_backtrace K fuel argc argv tf
  = Some (Cprintf fmt_backtrace_head []
            :: flat_map (frame_body K) (frames K n (wrap32 (read_ebp K))), 0).
Proof.
  intros Hchain Hfuel. unfold mon_backtrace.
  by rewrite (backtrace_loop_chain n).
Qed.

Lemma frame_lines_flat_map (l : list Z) :
  List.filter is_frame_line (flat_map (frame_body K) l) = map (frame_line K) l.
Proof.
  induction l as [|ebp l IH]; [done|].
  cbn [flat_map map]. by rewrite List.filter_app, frame_body_line, IH.
Qed.

Lemma mem_reads_flat_map (l : list Z) :
  mem_reads (flat_map (frame_body K) l) = flat_map frame_reads l.
Proof.
  induction l as [|ebp l IH]; [done|].
  cbn [flat_map]. by rewrite mem_reads_app, frame_body_reads, IH.
Qed.

(** The last read of a chain of at least one frame yields the sentinel. *)
Lemma chain_last_read (n : nat) : forall ebp : Z,
  chain_ends K (S n) ebp ->
  load K (List.last (flat_map frame_reads (frames K (S n) ebp)) 0) = 0.
Proof.
  induction n as [|n IH]; intros ebp [Hne Hchain].
  - simpl in Hchain. cbn. unfold load, wrap32 in *. by rewrite Z.mod_mod.
  - exact (IH _ Hchain).
Qed.

Lemma chain_frames_nonzero (n : nat) : forall ebp : Z,
  chain_ends K n ebp -> Forall (fun e => e <> 0) (frames K n ebp).
Proof.
  induction n as [|n IH]; intros ebp Hchain; [constructor|].
  destruct Hchain as [Hne Hchain]. constructor; [done|by apply IH].
Qed.

(** C1: when following the saved frame pointers from the current frame
    pointer reaches the zero sentinel after [n] frames, [mon_backtrace]
    returns (given [n + 1] evaluations of its loop condition) with 0 and
    prints exactly [n] frame lines, one per frame of the chain, each with
    the return address read at ebp+4 and the five argument words read at
    ebp+8, ebp+12, ebp+16, ebp+20 and ebp+24.  Its memory reads are, frame
    by frame in chain order, these six words and the saved frame pointer
    at ebp (addresses in 32-bit arithmetic), for the [n] non-zero frame
    pointers of the chain only: the read that yields the zero sentinel is
    the last one, nothing is read at or through the sentinel. *)
Theorem backtrace_walks_frame_chain (n fuel : nat) (argc : Z) argv tf :
  chain_ends K n (wrap32 (read_ebp K)) -> (n < fuel)%nat ->
  let chain := frames K n (wrap32 (read_ebp K)) in
  exists t : trace,
    mon_backtrace K fuel argc argv tf = Some (t, 0)
    /\ List.filter is_frame_line t = map (frame_line K) chain
    /\ length (List.filter is_frame_line t) = n
    /\ mem_reads t
       = flat_map (fun ebp => [ wrap32 (ebp + 4); wrap32 (ebp + 8);
                                wrap32 (ebp + 12); wrap32 (ebp + 16);
                                wrap32 (ebp + 20); wrap32 (ebp + 24);
                                wrap32 ebp ])
                  chain
    /\ length chain = n
    /\ Forall (fun ebp => ebp <> 0) chain
    /\ ((0 < n)%nat -> load K (List.last (mem_reads t) 0) = 0).
Proof.
  intros Hchain Hfuel chain. eexists. split; [by apply (mon_backtrace_chain n)|].
  assert (Hf : forall t, List.filter is_frame_line (Cprintf fmt_backtrace_head [] :: t)
                         = List.filter is_frame_line t) by reflexivity.
  assert (Hm : forall t, mem_reads (Cprintf fmt_backtrace_head [] :: t) = mem_reads t)
    by reflexivity.
  rewrite Hf, Hm, frame_lines_flat_map, mem_reads_flat_map, List.length_map.
  clear Hf Hm. subst chain. rewrite frames_length.
  split; [done|]. split; [done|]. split; [done|]. split; [done|].
  split; [by apply chain_frames_nonzero|].
  intros Hn. destruct n as [|n]; [lia|]. by apply chain_last_read.
Qed.

End Backtrace.

Lemma substring_length_le (s : string) : forall n : nat,
  (String.length (substring 0 n s) <= n)%nat.
Proof.
  induction s as [|c s IH]; intros [|n]; simpl; try lia.
  specialize (IH n). lia.
Qed.

Lemma substring_prefix (s : string) : forall n : nat,
  String.prefix (substring 0 n s) s = true.
Proof.
  induction s as [|c s IH]; intros [|n]; simpl; try done.
  destruct (ascii_dec c c); [apply IH|done].
Qed.

Lemma print_bounded_spec (len : Z) (s : string) :
  0 <= len ->
  (Z.of_nat (String.length (print_bounded len s)) <= len)
  /\ String.prefix (print_bounded len s) s = true.
Proof.
  intros Hlen. unfold print_bounded.
  replace (len <? 0) with false by (symmetry; apply Z.ltb_ge; lia).
  split; [|apply substring_prefix].
  pose proof (substring_length_le s (Z.to_nat len)). lia.
Qed.

Lemma load_range (K : Kernel) (addr : Z) : 0 <= load K addr < 2 ^ 32.
Proof. unfold load. apply wrap32_range. Qed.

Section BacktraceSymbols.

Context {Trapframe : Type}.
Variable K : Kernel.
Implicit Types (tf : option Trapframe) (argv : list string).

(** C5: [mon_backtrace] runs the loop body once per frame of the chain.
    In each run, after the frame line, it queries the resolver with the
    return address read at ebp+4.  If the resolver succeeds (returns 0) it
    prints the file name and the line number, then the function name with
    the reported length as the precision of "%.*s" (so at most that many
    characters of the name are printed, a prefix of it), then the return
    address minus the function's start address (in 32-bit arithmetic,
    which is the plain difference when the start is not above the return
    address); if the resolver fails it prints "not found" instead. *)
Theorem backtrace_symbol_lines (n fuel : nat) (argc : Z) argv tf :
  chain_ends K n (wrap32 (read_ebp K)) -> (n < fuel)%nat ->
  mon_backtrace K fuel argc argv tf
  = Some (Cprintf fmt_backtrace_head []
            :: flat_map (frame_body K) (frames K n (wrap32 (read_ebp K))), 0)
  /\ forall ebp : Z,
       let eip := load K (ebp + 4) in
       let rc := fst (debuginfo_eip K eip) in
       let info := snd (debuginfo_eip K eip) in
       frame_body K ebp
       = map ReadMem [ wrap32 (ebp + 4); wrap32 (ebp + 8); wrap32 (ebp + 12);
                       wrap32 (ebp + 16); wrap32 (ebp + 20); wrap32 (ebp + 24) ]
         ++ [ frame_line K ebp; DebuginfoEip eip ]
         ++ symbol_lines K eip ++ [ ReadMem (wrap32 ebp) ]
       /\ (rc = 0 ->
           symbol_lines K eip
           = [ Cprintf fmt_file_line [ArgStr (eip_file info); ArgInt (eip_line info)];
               Cprintf fmt_fn_name
                       [ArgInt (eip_fn_namelen info); ArgStr (eip_fn_name info)];
               Cprintf fmt_fn_offset [ArgInt (wrap32 (eip - eip_fn_addr info))] ]
           /\ (0 <= eip_fn_namelen info ->
               Z.of_nat (String.length
                           (print_bounded (eip_fn_namelen info) (eip_fn_name info)))
               <= eip_fn_namelen info
               /\ String.prefix
                    (print_bounded (eip_fn_namelen info) (eip_fn_name info))
                    (eip_fn_name info) = true)
           /\ (0 <= eip_fn_addr info <= eip ->
               wrap32 (eip - eip_fn_addr info) = eip - eip_fn_addr info))
       /\ (rc <> 0 -> symbol_lines K eip = [ Cprintf fmt_not_found [] ]).
Proof.
  intros Hchain Hfuel. split; [by apply (mon_backtrace_chain K n)|].
  intros ebp eip rc info. split; [|split].
  - reflexivity.
  - intros Hrc. subst rc info. unfold symbol_lines.
    destruct (debuginfo_eip K eip) as [rc info]. simpl in Hrc. subst rc.
    split; [reflexivity|]. split.
    + apply print_bounded_spec.
    + intros Haddr. apply wrap32_small.
      pose proof (load_range K (ebp + 4)) as Heip. fold eip in Heip.
      cbn [fst snd] in *. lia.
  - intros Hrc. subst rc info. unfold symbol_lines.
    destruct (debuginfo_eip K eip) as [rc info]. simpl in Hrc.
    by replace (rc =? 0) with false by (symmetry; by apply Z.eqb_neq).
Qed.

End BacktraceSymbols.

(** ** The read loop *)

Section ReadLoop.

Context {Trapframe : Type}.
Variable K : Kernel.
Implicit Types (cmds : list (@Command Trapframe)) (tf : option Trapframe).

Lemma emit_exited (t : trace) (o : outcome) :
  (exists t', emit t o = Exited t') <-> (exists t', o = Exited t').
Proof.
  destruct o; simpl; split; intros [t' Ht']; try discriminate; eauto.
Qed.

(** A return value of [lookup_cmd] is the one of a registered handler, or
    the 0 of the unknown-command path. *)
Lemma lookup_cmd_result cmds (argc : Z) (argv : list string) tf (t : trace) (r : Z) :
  lookup_cmd cmds argc argv tf = Some (t, r) ->
  (t = [Cprintf fmt_unknown [ArgStr (nth 0 argv "")]] /\ r = 0
   /\ Forall (fun c => name c <> nth 0 argv "") cmds)
  \/ exists c, In c cmds /\ name c = nth 0 argv ""
               /\ func c argc argv tf = Some (t, r).
Proof.
  induction cmds as [|c cmds IH]; cbn [lookup_cmd].
  - intros [= <- <-]. left. by repeat split.
  - destruct (String.eqb_spec (nth 0 argv "") (name c)) as [Heq|Hne].
    + intros Hf. right. exists c. split; [by left|]. by split.
    + intros Hl. destruct (IH Hl) as [(-> & -> & Hall)|(c' & Hin & Hname & Hf)].
      * left. repeat split; [done..|]. constructor; [congruence|done].
      * right. exists c'. split; [by right|]. by split.
Qed.

(** A negative return value of [runcmd] comes from a dispatched handler. *)
Lemma runcmd_negative cmds (buf : list ascii) tf (t : trace) (r : Z) :
  runcmd cmds buf tf = Some (t, r) -> r < 0 ->
  exists c, In c cmds
            /\ func c (Z.of_nat (length (tokens buf)))
                    (map string_of_list_ascii (tokens buf)) tf = Some (t, r).
Proof.
  rewrite runcmd_tokens. case_leb; [|intros [= <- <-]; lia].
  unfold run_tokens. destruct (tokens buf) as [|tok toks] eqn:E.
  - intros [= <- <-]. lia.
  - intros Hl Hr. apply lookup_cmd_result in Hl.
    destruct Hl as [(_ & -> & _)|(c & Hin & _ & Hf)]; [lia|]. eauto.
Qed.

Lemma monitor_loop_exits_iff cmds tf (rounds : nat) : forall n : nat,
  (exists t, monitor_loop K cmds tf rounds n = Exited t)
  <-> exists k : nat,
        (n <= k < n + rounds)%nat /\ line_exits K cmds tf k
        /\ forall j : nat, (n <= j < k)%nat -> line_continues K cmds tf j.
Proof.
  induction rounds as [|rounds IH]; intros n.
  - split; [intros [t Ht]; discriminate|intros (k & Hk & _); lia].
  - cbn [monitor_loop]. destruct (readline K n) as [buf|] eqn:Hline.
    + destruct (runcmd cmds buf tf) as [[t r]|] eqn:Hrun.
      * destruct (Z.ltb_spec r 0) as [Hneg|Hpos].
        -- split; [intros _|by eauto].
           exists n. split; [lia|]. split; [by exists buf, t, r|]. intros j Hj. lia.
        -- rewrite emit_exited, IH. split.
           ++ intros (k & Hk & Hex & Hcont). exists k. split; [lia|]. split; [done|].
              intros j Hj. destruct (decide (j = n)) as [->|Hne].
              ** right. by exists buf, t, r.
              ** apply Hcont. lia.
           ++ intros (k & Hk & Hex & Hcont). exists k.
              assert (k <> n).
              { intros ->. destruct Hex as (buf' & t' & r' & Hl & Hr & Hlt).
                rewrite Hline in Hl. injection Hl as <-.
                rewrite Hrun in Hr. injection Hr as <- <-. lia. }
              split; [lia|]. split; [done|]. intros j Hj. apply Hcont. lia.
      * split; [intros [t Ht]; discriminate|].
        intros (k & Hk & Hex & Hcont). exfalso.
        destruct (decide (k = n)) as [->|Hne].
        -- destruct Hex as (buf' & t' & r' & Hl & Hr & _).
           rewrite Hline in Hl. injection Hl as <-. congruence.
        -- destruct (Hcont n ltac:(lia)) as [Hl|(buf' & t' & r' & Hl & Hr & _)];
             [congruence|].
           rewrite Hline in Hl. injection Hl as <-. congruence.
    + rewrite emit_exited, IH. split.
      * intros (k & Hk & Hex & Hcont). exists k. split; [lia|]. split; [done|].
        intros j Hj. destruct (decide (j = n)) as [->|Hne]; [by left|].
        apply Hcont. lia.
      * intros (k & Hk & Hex & Hcont). exists k.
        assert (k <> n).
        { intros ->. destruct Hex as (buf' & t' & r' & Hl & _). congruence. }
        split; [lia|]. split; [done|]. intros j Hj. apply Hcont. lia.
Qed.

(** The paths of [runcmd] that reach no handler return 0. *)
Lemma runcmd_paths cmds (buf : list ascii) tf :
  (tokens buf = [] -> runcmd cmds buf tf = Some ([], 0))
  /\ ((15 < length (tokens buf))%nat ->
      runcmd cmds buf tf = Some ([Cprintf fmt_too_many [ArgInt MAXARGS]], 0))
  /\ ((0 < length (tokens buf) <= 15)%nat ->
      Forall (fun c => name c <> nth 0 (map string_of_list_ascii (tokens buf)) "")
             cmds ->
      exists arg0, runcmd cmds buf tf = Some ([Cprintf fmt_unknown [ArgStr arg0]], 0)).
Proof.
  rewrite runcmd_tokens. split; [|split].
  - intros ->. reflexivity.
  - intros Hlen. case_leb; [lia|done].
  - intros Hlen Hall. case_leb; [|lia]. unfold run_tokens.
    destruct (tokens buf) as [|tok toks]; [simpl in Hlen; lia|].
    set (argc := Z.of_nat _). set (argv := map _ _) in *.
    exists (nth 0 argv ""). clearbody argc argv.
    induction Hall as [|c cmds Hc Hall IH]; [done|].
    cbn [lookup_cmd].
    destruct (String.eqb_spec (nth 0 argv "") (name c)); [congruence|done].
Qed.

(** C7: the read loop of [monitor] ends exactly when a dispatched handler
    returns a negative value.  A null line, and a line whose processing
    returns zero or a positive value, make the loop read the next line; a
    line whose processing returns a negative value makes it leave the loop
    with nothing read after it.  So the loop ends if and only if some line
    returns a negative value after lines that all let the loop continue;
    such a value is the return value of a handler of the table, since the
    empty-line, too-many-arguments and unknown-command paths of [runcmd]
    return 0. *)
Theorem monitor_loop_exit_contract cmds tf :
  (forall (rounds n : nat),
      readline K n = None ->
      monitor_loop K cmds tf (S rounds) n
      = emit [Readline "K> "] (monitor_loop K cmds tf rounds (S n)))
  /\ (forall (rounds n : nat) (buf : list ascii) (t : trace) (r : Z),
      readline K n = Some buf -> runcmd cmds buf tf = Some (t, r) -> 0 <= r ->
      monitor_loop K cmds tf (S rounds) n
      = emit (Readline "K> " :: t) (monitor_loop K cmds tf rounds (S n)))
  /\ (forall (rounds n : nat) (buf : list ascii) (t : trace) (r : Z),
      readline K n = Some buf -> runcmd cmds buf tf = Some (t, r) -> r < 0 ->
      monitor_loop K cmds tf (S rounds) n = Exited (Readline "K> " :: t))
  /\ ((exists (rounds : nat) (t : trace), monitor K cmds tf rounds = Exited t)
      <-> exists k : nat,
            line_exits K cmds tf k
            /\ forall j : nat, (j < k)%nat -> line_continues K cmds tf j)
  /\ (forall (buf : list ascii) (t : trace) (r : Z),
      runcmd cmds buf tf = Some (t, r) -> r < 0 ->
      exists c, In c cmds
                /\ func c (Z.of_nat (length (tokens buf)))
                        (map string_of_list_ascii (tokens buf)) tf = Some (t, r))
  /\ (forall buf : list ascii,
      (tokens buf = [] -> runcmd cmds buf tf = Some ([], 0))
      /\ ((15 < length (tokens buf))%nat ->
          runcmd cmds buf tf = Some ([Cprintf fmt_too_many [ArgInt MAXARGS]], 0))
      /\ ((0 < length (tokens buf) <= 15)%nat ->
          Forall (fun c => name c <> nth 0 (map string_of_list_ascii (tokens buf)) "")
                 cmds ->
          exists arg0, runcmd cmds buf tf
                       = Some ([Cprintf fmt_unknown [ArgStr arg0]], 0))).
Proof.
  split; [|split; [|split; [|split; [|split]]]].
  - intros rounds n Hline. cbn [monitor_loop]. by rewrite Hline.
  - intros rounds n buf t r Hline Hrun Hr. cbn [monitor_loop].
    rewrite Hline, Hrun.
    by replace (r <? 0) with false by (symmetry; apply Z.ltb_ge; lia).
  - intros rounds n buf t r Hline Hrun Hr. cbn [monitor_loop].
    rewrite Hline, Hrun.
    by replace (r <? 0) with true by (symmetry; apply Z.ltb_lt; lia).
  - unfold monitor. split.
    + intros (rounds & t & Hex).
      destruct (proj1 (emit_exited _ _) (ex_intro _ t Hex)) as [t' Ht'].
      destruct (proj1 (monitor_loop_exits_iff cmds tf rounds 0) (ex_intro _ t' Ht'))
        as (k & Hk & Hexit & Hcont).
      exists k. split; [done|]. intros j Hj. apply Hcont. lia.
    + intros (k & Hexit & Hcont).
      destruct (proj2 (monitor_loop_exits_iff cmds tf (S k) 0)) as [t Ht].
      { exists k. split; [lia|]. split; [done|]. intros j Hj. apply Hcont. lia. }
      exists (S k). apply emit_exited. eauto.
  - intros buf t r. apply runcmd_negative.
  - intros buf. apply runcmd_paths.
Qed.

End ReadLoop.

(** ** The registered commands *)

Section RegisteredCommands.

Context {Trapframe : Type}.
Variable K : Kernel.
Implicit Types (tf : option Trapframe) (argv : list string).

Lemma commands_descs (fuel : nat) :
  map (fun c : @Command Trapframe => (name c, desc c)) (commands K fuel)
  = command_descs.
Proof. reflexivity. Qed.

Lemma mon_showmappings_returns (argc : Z) argv tf :
  exists t : trace, mon_showmappings K argc argv tf = Some (t, 0).
Proof.
  unfold mon_showmappings. destruct (negb (argc =? 3)); [by eexists|].
  destruct (_ <? _); by eexists.
Qed.

Lemma mon_backtrace_zero (fuel : nat) (argc : Z) argv tf (t : trace) (r : Z) :
  mon_backtrace K fuel argc argv tf = Some (t, r) -> r = 0.
Proof.
  unfold mon_backtrace. destruct (backtrace_loop K fuel _); [|done].
  by intros [= _ <-].
Qed.

Lemma lookup_commands_zero (fuel : nat) (argc : Z) argv tf (t : trace) (r : Z) :
  lookup_cmd (commands K fuel) argc argv tf = Some (t, r) -> r = 0.
Proof.
  intros Hl. apply lookup_cmd_result in Hl.
  destruct Hl as [(_ & -> & _)|(c & Hin & _ & Hf)]; [done|].
  destruct Hin as [<-|[<-|[<-|[<-|[]]]]]; cbn [func] in Hf.
  - by injection Hf as _ <-.
  - by injection Hf as _ <-.
  - by eapply mon_backtrace_zero.
  - destruct (mon_showmappings_returns argc argv tf) as [t' Ht'].
    rewrite Ht' in Hf. by injection Hf as _ <-.
Qed.

Lemma runcmd_commands_zero (fuel : nat) (buf : list ascii) tf (t : trace) (r : Z) :
  runcmd (commands K fuel) buf tf = Some (t, r) -> r = 0.
Proof.
  rewrite runcmd_tokens. case_leb; [|by intros [= _ <-]].
  unfold run_tokens. destruct (tokens buf); [by intros [= _ <-]|].
  apply lookup_commands_zero.
Qed.

Lemma runcmd_commands_returns (n fuel : nat) (buf : list ascii) tf :
  chain_ends K n (wrap32 (read_ebp K)) -> (n < fuel)%nat ->
  exists t : trace, runcmd (commands K fuel) buf tf = Some (t, 0).
Proof.
  intros Hchain Hfuel. rewrite runcmd_tokens. case_leb; [|by eexists].
  unfold run_tokens. destruct (tokens buf) as [|tok toks]; [by eexists|].
  set (argc := Z.of_nat _). set (argv := map _ _). clearbody argc argv.
  unfold commands. cbn [lookup_cmd name func].
  destruct (String.eqb _ "help"); [by eexists|].
  destruct (String.eqb _ "kerninfo"); [by eexists|].
  destruct (String.eqb _ "backtrace").
  { rewrite (mon_backtrace_chain K n) by done. by eexists. }
  destruct (String.eqb _ "showmappings"); [|by eexists].
  apply mon_showmappings_returns.
Qed.

Lemma monitor_loop_commands_reading (n fuel : nat) tf (rounds : nat) :
  chain_ends K n (wrap32 (read_ebp K)) -> (n < fuel)%nat ->
  forall i : nat,
    exists t : trace, monitor_loop K (commands K fuel) tf rounds i = Reading t.
Proof.
  intros Hchain Hfuel. induction rounds as [|rounds IH]; intros i; [by eexists|].
  cbn [monitor_loop]. destruct (IH (S i)) as [t' Ht']. rewrite Ht'.
  destruct (readline K i) as [buf|]; [|by eexists].
  destruct (runcmd_commands_returns n fuel buf tf Hchain Hfuel) as [t Ht].
  rewrite Ht. by eexists.
Qed.

(** C9: every handler of the registered table returns 0 whenever it
    returns ([mon_help], [mon_kerninfo] and [mon_showmappings] always do,
    [mon_backtrace] does when the frame-pointer chain ends), and [runcmd]
    returns 0 on its empty-line, too-many-arguments and unknown-command
    paths.  Hence every return value of [runcmd] over the registered table
    is 0, [runcmd] returns for every line when the chain ends, and the read
    loop never ends: after any number of rounds it has not exited, and it
    is reading the next line when the chain ends. *)
Theorem registered_commands_return_zero (fuel : nat) tf :
  (forall (argc : Z) argv,
      (exists t, mon_help argc argv tf = Some (t, 0))
      /\ (exists t, mon_kerninfo K argc argv tf = Some (t, 0))
      /\ (exists t, mon_showmappings K argc argv tf = Some (t, 0))
      /\ (forall t r, mon_backtrace K fuel argc argv tf = Some (t, r) -> r = 0)
      /\ (forall n : nat, chain_ends K n (wrap32 (read_ebp K)) -> (n < fuel)%nat ->
                          exists t, mon_backtrace K fuel argc argv tf = Some (t, 0)))
  /\ (forall buf : list ascii,
      (tokens buf = [] -> runcmd (commands K fuel) buf tf = Some ([], 0))
      /\ ((15 < length (tokens buf))%nat ->
          runcmd (commands K fuel) buf tf
          = Some ([Cprintf fmt_too_many [ArgInt MAXARGS]], 0))
      /\ ((0 < length (tokens buf) <= 15)%nat ->
          Forall (fun c : @Command Trapframe =>
                    name c <> nth 0 (map string_of_list_ascii (tokens buf)) "")
                 (commands K fuel) ->
          exists arg0, runcmd (commands K fuel) buf tf
                       = Some ([Cprintf fmt_unknown [ArgStr arg0]], 0))
      /\ (forall t r, runcmd (commands K fuel) buf tf = Some (t, r) -> r = 0)
      /\ (forall n : nat, chain_ends K n (wrap32 (read_ebp K)) -> (n < fuel)%nat ->
                          exists t, runcmd (commands K fuel) buf tf = Some (t, 0)))
  /\ (forall (rounds : nat) (t : trace),
      monitor K (commands K fuel) tf rounds <> Exited t)
  /\ (forall n : nat, chain_ends K n (wrap32 (read_ebp K)) -> (n < fuel)%nat ->
      forall rounds : nat,
        exists t, monitor K (commands K fuel) tf rounds = Reading t).
Proof.
  split; [|split; [|split]].
  - intros argc argv. split; [by eexists|]. split; [by eexists|].
    split; [apply mon_showmappings_returns|]. split.
    + apply mon_backtrace_zero.
    + intros n Hchain Hfuel. rewrite (mon_backtrace_chain K n) by done. by eexists.
  - intros buf. split; [|split; [|split; [|split]]].
    + apply runcmd_paths.
    + apply runcmd_paths.
    + apply runcmd_paths.
    + apply runcmd_commands_zero.
    + intros n. apply runcmd_commands_returns.
  - intros rounds t Hex. unfold monitor in Hex.
    destruct (proj1 (emit_exited _ _) (ex_intro _ t Hex)) as [t' Ht'].
    destruct (proj1 (monitor_loop_exits_iff K _ tf rounds 0) (ex_intro _ t' Ht'))
      as (k & _ & (buf & t'' & r & _ & Hrun & Hneg) & _).
    apply runcmd_commands_zero in Hrun. lia.
  - intros n Hchain Hfuel rounds. unfold monitor.
    destruct (monitor_loop_commands_reading n fuel tf rounds Hchain Hfuel 0%nat)
      as [t Ht].
    rewrite Ht. by eexists.
Qed.

End RegisteredCommands.

(** ** The arguments of showmappings *)

Lemma strtol_spec_malformed (s : string) :
  valid_hex s = false -> strtol_spec s 16 = 0.
Proof.
  unfold valid_hex, strtol_spec.
  destruct (strip_0x 16 (list_ascii_of_string s)) as [|c l]; [done|].
  by destruct (digits_value 16 0 (c :: l)).
Qed.

Section ShowmappingsArguments.

Context {Trapframe : Type}.
Variable K : Kernel.
Implicit Types (tf : option Trapframe).

(** The argument texts matter through their base-16 values only. *)
Lemma showmappings_values (cmd a1 a2 cmd' b1 b2 : string) tf :
  strtol K a1 16 = strtol K b1 16 -> strtol K a2 16 = strtol K b2 16 ->
  mon_showmappings K 3 [cmd; a1; a2] tf = mon_showmappings K 3 [cmd'; b1; b2] tf.
Proof.
  intros H1 H2. unfold mon_showmappings. cbn [nth]. by rewrite H1, H2.
Qed.

(** C8: [mon_showmappings] takes its two arguments through
    [strtol(_, NULL, 16)] only.  With a [strtol] that keeps the contract
    the spec states (malformed text parses as zero), an argument that is
    not valid hexadecimal text is used as the value zero: the command
    behaves exactly as for the text "0" in its place, with no message
    about the text, and it returns 0 as always (the range check then
    applies to the value zero as to any other value). *)
Theorem showmappings_malformed_hex_is_zero (cmd a1 a2 : string) tf :
  (forall (s : string) (base : Z), strtol K s base = strtol_spec s base) ->
  (exists t : trace, mon_showmappings K 3 [cmd; a1; a2] tf = Some (t, 0))
  /\ (forall b1 b2 : string,
         strtol K a1 16 = strtol K b1 16 -> strtol K a2 16 = strtol K b2 16 ->
         mon_showmappings K 3 [cmd; a1; a2] tf = mon_showmappings K 3 [cmd; b1; b2] tf)
  /\ (valid_hex a1 = false ->
      strtol K a1 16 = 0
      /\ mon_showmappings K 3 [cmd; a1; a2] tf = mon_showmappings K 3 [cmd; "0"; a2] tf)
  /\ (valid_hex a2 = false ->
      strtol K a2 16 = 0
      /\ mon_showmappings K 3 [cmd; a1; a2] tf = mon_showmappings K 3 [cmd; a1; "0"] tf)
  /\ (valid_hex a1 = false -> valid_hex a2 = false ->
      mon_showmappings K 3 [cmd; a1; a2] tf = Some (show_page K 0, 0)).
Proof.
  intros Hstrtol.
  assert (Hbad : forall s, valid_hex s = false -> strtol K s 16 = 0).
  { intros s Hs. rewrite Hstrtol. by apply strtol_spec_malformed. }
  assert (Hzero : strtol K "0" 16 = 0) by (by rewrite Hstrtol).
  split; [apply mon_showmappings_returns|]. split; [|split; [|split]].
  - intros b1 b2. apply showmappings_values.
  - intros Ha1. split; [by apply Hbad|].
    apply showmappings_values; [|done]. by rewrite Hzero, Hbad.
  - intros Ha2. split; [by apply Hbad|].
    apply showmappings_values; [done|]. by rewrite Hzero, Hbad.
  - intros Ha1 Ha2. unfold mon_showmappings. cbn [nth].
    rewrite (Hbad a1 Ha1), (Hbad a2 Ha2). reflexivity.
Qed.

End ShowmappingsArguments.

(** ** The instances checked on the sample kernel *)

(** C2: "showmappings 0 7fffffff" names a range of 2^31 bytes, that is
    524288 pages, and [mon_showmappings] queries the page table not once
    for it, while "showmappings 0x0 0xFFF" issues exactly one query, for
    address 0. *)
Theorem showmappings_two_gigabytes_unwalked :
  let dispatch line :=
    runcmd (commands sample_kernel 0) (list_ascii_of_string line) (@None unit) in
  dispatch "showmappings 0 7fffffff" = Some ([], 0)
  /\ wrap32 (strtol sample_kernel "7fffffff" 16) = 2147483647
  /\ (2147483647 - 0 + 1 + (PGSIZE - 1)) / PGSIZE = 524288
  /\ npages_of 0 2147483647 = -524288
  /\ option_map (fun r => walks (fst r)) (dispatch "showmappings 0x0 0xFFF")
     = Some [0].
Proof. vm_compute. by repeat split. Qed.

(** The sample stack is a chain of two frames. *)
Lemma sample_chain : chain_ends sample_kernel 2 (wrap32 (read_ebp sample_kernel)).
Proof. vm_compute. repeat split; discriminate. Defined.

(** C1 on the sample stack: two frame lines, fourteen reads. *)
Lemma backtrace_walks_frame_chain_witness :
  exists t : trace,
    mon_backtrace sample_kernel 3 1 ["backtrace"] (@None unit) = Some (t, 0)
    /\ List.filter is_frame_line t
       = [ Cprintf fmt_frame [ArgInt 4096; ArgInt 1048646; ArgInt 5; ArgInt 0;
                              ArgInt 0; ArgInt 0; ArgInt 0];
           Cprintf fmt_frame [ArgInt 8192; ArgInt 1048838; ArgInt 0; ArgInt 0;
                              ArgInt 0; ArgInt 0; ArgInt 0] ]
    /\ mem_reads t = [4100; 4104; 4108; 4112; 4116; 4120; 4096;
                      8196; 8200; 8204; 8208; 8212; 8216; 8192].
Proof.
  destruct (backtrace_walks_frame_chain (Trapframe := unit) sample_kernel
              2 3 1 ["backtrace"] None sample_chain ltac:(lia))
    as (t & Hrun & Hlines & _ & Hreads & _).
  exists t. split; [exact Hrun|]. split.
  - rewrite Hlines. vm_compute. reflexivity.
  - rewrite Hreads. vm_compute. reflexivity.
Defined.

(** C3 on "showmappings 0x2000 0x1000". *)
Lemma showmappings_rejects_reversed_range_witness :
  exists t : trace,
    mon_showmappings sample_kernel 3 ["showmappings"; "0x2000"; "0x1000"]
                     (@None unit) = Some (t, 0)
    /\ t = [Cprintf fmt_end_lt_start []]
    /\ walks t = []
    /\ List.filter is_page_line t = [].
Proof.
  apply (showmappings_rejects_reversed_range (Trapframe := unit) sample_kernel
           ["showmappings"; "0x2000"; "0x1000"] None).
  vm_compute. reflexivity.
Defined.

(** C4 on a line of three tokens. *)
Lemma runcmd_argument_limit_witness :
  runcmd (commands sample_kernel 0)
         (list_ascii_of_string "showmappings 0x2000 0x1000") (@None unit)
  = run_tokens (commands sample_kernel 0)
               (tokens (list_ascii_of_string "showmappings 0x2000 0x1000"))
               (@None unit).
Proof.
  apply (proj2 (runcmd_argument_limit unit (commands sample_kernel 0)
                  (list_ascii_of_string "showmappings 0x2000 0x1000") None)).
  vm_compute. lia.
Defined.

(** C4 as stated fails on a line of sixteen tokens: it has at most 16
    tokens, yet it is not handed to the lookup (which would run "help")
    but answered with the "Too many arguments" message. *)
Lemma sixteen_tokens_not_dispatched :
  (length (tokens sixteen_tokens) <= 16)%nat
  /\ runcmd (commands sample_kernel 0) sixteen_tokens (@None unit)
     = too_many_arguments
  /\ runcmd (commands sample_kernel 0) sixteen_tokens (@None unit)
     <> run_tokens (commands sample_kernel 0) (tokens sixteen_tokens) (@None unit).
Proof.
  split; [vm_compute; lia|]. split; [vm_compute; reflexivity|].
  vm_compute. discriminate.
Qed.

(** C5 on the sample stack: the first return address lies in the known
    function, the second does not. *)
Lemma backtrace_symbol_lines_witness :
  symbol_lines sample_kernel (load sample_kernel (4096 + 4))
  = [ Cprintf fmt_file_line [ArgStr "kern/init.c"; ArgInt 24];
      Cprintf fmt_fn_name [ArgInt 14; ArgStr "test_backtrace:F(0,25)"];
      Cprintf fmt_fn_offset [ArgInt 6] ]
  /\ print_bounded 14 "test_backtrace:F(0,25)" = "test_backtrace"
  /\ symbol_lines sample_kernel (load sample_kernel (8192 + 4))
     = [ Cprintf fmt_not_found [] ].
Proof.
  destruct (backtrace_symbol_lines (Trapframe := unit) sample_kernel
              2 3 1 ["backtrace"] None sample_chain ltac:(lia))
    as [_ Hframe].
  destruct (Hframe 4096) as (_ & Hfound & _).
  destruct (Hframe 8192) as (_ & _ & Hmissing).
  split; [|split].
  - rewrite (proj1 (Hfound ltac:(reflexivity))). vm_compute. reflexivity.
  - vm_compute. reflexivity.
  - apply Hmissing. vm_compute. discriminate.
Defined.

(** C6 on a line of two tokens behind, between and before runs of
    whitespace. *)
Lemma runcmd_tokenizer_witness :
  let items := [ (list_ascii_of_string "  ", list_ascii_of_string "help");
                 (list_ascii_of_string "   ", list_ascii_of_string "me") ] in
  let buf := line_of items (list_ascii_of_string " " ++ []) in
  exists (b : list ascii) (argv : list nat),
    parse_args (S (length buf)) buf 0 0 [] = Some (Args b 2 argv)
    /\ map (cstring b) argv = ["help"; "me"].
Proof.
  apply (proj1 (proj2 runcmd_tokenizer)
           [ (list_ascii_of_string "  ", list_ascii_of_string "help");
             (list_ascii_of_string "   ", list_ascii_of_string "me") ]
           (list_ascii_of_string " ") []).
  - repeat split; try (intros; discriminate); repeat constructor.
  - split; [repeat constructor|reflexivity].
  - simpl. lia.
Defined.

(** C7 on the sample input: with a table that has a "quit" command
    returning -1, the loop ends at the fourth call of [readline]. *)
Lemma monitor_loop_exit_contract_witness :
  exists (rounds : nat) (t : trace),
    monitor sample_kernel quit_table None rounds = Exited t.
Proof.
  apply (proj1 (proj2 (proj2 (proj2
           (monitor_loop_exit_contract sample_kernel quit_table None))))).
  exists 3%nat. split.
  - exists (list_ascii_of_string "quit"), [], (-1).
    split; [reflexivity|]. split; [vm_compute; reflexivity|lia].
  - intros [|[|[|j]]] Hj; [ | | | lia].
    + right. eexists _, _, 0. split; [reflexivity|]. split; [vm_compute; reflexivity|lia].
    + left. reflexivity.
    + right. eexists _, _, 0. split; [reflexivity|]. split; [vm_compute; reflexivity|lia].
Defined.

(** C8 on "showmappings zzz 0xFFF": the start is taken as 0. *)
Lemma showmappings_malformed_hex_is_zero_witness :
  strtol sample_kernel "zzz" 16 = 0
  /\ mon_showmappings sample_kernel 3 ["showmappings"; "zzz"; "0xFFF"] (@None unit)
     = mon_showmappings sample_kernel 3 ["showmappings"; "0"; "0xFFF"] (@None unit).
Proof.
  apply (showmappings_malformed_hex_is_zero (Trapframe := unit) sample_kernel
           "showmappings" "zzz" "0xFFF" None (fun s base => eq_refl)).
  reflexivity.
Defined.

(** C9 on the sample kernel: "backtrace" returns 0 and the loop reads on. *)
Lemma registered_commands_return_zero_witness :
  (exists t : trace,
      runcmd (commands sample_kernel 3) (list_ascii_of_string "backtrace")
             (@None unit) = Some (t, 0))
  /\ exists t : trace,
       monitor sample_kernel (commands sample_kernel 3) (@None unit) 5 = Reading t.
Proof.
  pose proof (registered_commands_return_zero (Trapframe := unit)
                sample_kernel 3 None) as (_ & Hrun & _ & Hloop).
  split.
  - apply (proj2 (proj2 (proj2 (proj2 (Hrun (list_ascii_of_string "backtrace")))))
             2%nat sample_chain).
    lia.
  - apply (Hloop 2%nat sample_chain). lia.
Defined.

(** C10 on "showmappings 0 ffffffff". *)
Lemma showmappings_large_span_no_walk_witness :
  npages_of (wrap32 (strtol sample_kernel "0" 16))
            (wrap32 (strtol sample_kernel "ffffffff" 16)) <= 0
  /\ mon_showmappings sample_kernel 3 ["showmappings"; "0"; "ffffffff"] (@None unit)
     = Some ([], 0).
Proof.
  destruct (showmappings_large_span_no_walk (Trapframe := unit) sample_kernel
              ["showmappings"; "0"; "ffffffff"] None)
    as (Hn & Hrun & _).
  - vm_compute. discriminate.
  - vm_compute. discriminate.
  - split; [exact Hn|exact Hrun].
Defined.

(** * Further properties *)

(** ** Dispatch *)

Section DispatchProperties.

Context {Trapframe : Type}.
Implicit Types (cmds : list (@Command Trapframe)) (tf : option Trapframe).

Lemma lookup_cmd_first_match (pre post : list (@Command Trapframe))
    (c : @Command Trapframe) (argc : Z) (argv : list string) tf :
  Forall (fun d => name d <> name c) pre -> nth 0 argv "" = name c ->
  lookup_cmd (pre ++ c :: post) argc argv tf = func c argc argv tf.
Proof.
  intros Hpre Harg. induction Hpre as [|d pre Hd Hpre IH]; cbn [app lookup_cmd].
  - rewrite Harg. by rewrite String.eqb_refl.
  - destruct (String.eqb_spec (nth 0 argv "") (name d)); [congruence|done].
Qed.

(** A line of at most 15 tokens goes to the lookup with all its tokens. *)
Lemma runcmd_head_token cmds (buf t0 : list ascii) (rest : list (list ascii)) tf :
  tokens buf = t0 :: rest -> (length rest < 15)%nat ->
  runcmd cmds buf tf
  = lookup_cmd cmds (Z.of_nat (S (length rest)))
               (map string_of_list_ascii (t0 :: rest)) tf.
Proof.
  intros Htok Hlen. rewrite runcmd_tokens, Htok.
  case_leb; [done|simpl in *; lia].
Qed.

(** X4: a line of at most 15 tokens whose first token is the name of a
    command [c] of the table, no earlier entry of the table having that
    name, runs the handler of [c] with [argc] the number of tokens and
    [argv] the tokens, and [runcmd] hands on what the handler returns. *)
Theorem runcmd_dispatches_first_match (pre post : list (@Command Trapframe))
    (c : @Command Trapframe) (buf t0 : list ascii) (rest : list (list ascii)) tf :
  tokens buf = t0 :: rest -> (length rest < 15)%nat ->
  string_of_list_ascii t0 = name c ->
  Forall (fun d => name d <> name c) pre ->
  runcmd (pre ++ c :: post) buf tf
  = func c (Z.of_nat (S (length rest)))
         (map string_of_list_ascii (t0 :: rest)) tf.
Proof.
  intros Htok Hlen Hname Hpre. rewrite (runcmd_head_token _ _ _ _ _ Htok Hlen).
  by apply lookup_cmd_first_match.
Qed.

(** X5: a line of at most 15 tokens whose first token is the name of no
    command of the table is answered with the unknown-command message
    naming that token, and with 0; no handler runs. *)
Theorem runcmd_unknown_command cmds (buf t0 : list ascii)
    (rest : list (list ascii)) tf :
  tokens buf = t0 :: rest -> (length rest < 15)%nat ->
  Forall (fun d => name d <> string_of_list_ascii t0) cmds ->
  runcmd cmds buf tf
  = Some ([Cprintf fmt_unknown [ArgStr (string_of_list_ascii t0)]], 0).
Proof.
  intros Htok Hlen Hall. rewrite (runcmd_head_token _ _ _ _ _ Htok Hlen).
  set (argc := Z.of_nat _). clearbody argc.
  induction Hall as [|d cmds Hd Hall IH]; cbn [lookup_cmd map nth]; [done|].
  destruct (String.eqb_spec (string_of_list_ascii t0) (name d)); [congruence|].
  exact IH.
Qed.

Lemma tokens_acc_nul (l : list ascii) : forall (cur junk : list ascii),
  tokens_acc cur (l ++ NUL :: junk) = tokens_acc cur l.
Proof.
  induction l as [|c l IH]; intros cur junk; cbn [app tokens_acc]; [done|].
  destruct (is_nul c); [done|]. destruct (strchr WHITESPACE c); by rewrite IH.
Qed.

(** X8: [runcmd] reads its buffer as a C string: whatever follows the
    first [NUL] byte has no influence on what it does. *)
Theorem runcmd_ignores_bytes_after_nul cmds (l junk : list ascii) tf :
  runcmd cmds (l ++ NUL :: junk) tf = runcmd cmds l tf.
Proof. rewrite !runcmd_tokens. unfold tokens. by rewrite tokens_acc_nul. Qed.

Lemma tokens_acc_trailing (l : list ascii) : forall (cur w : list ascii),
  Forall (fun c => is_space c = true) w ->
  tokens_acc cur (l ++ w) = tokens_acc cur l.
Proof.
  induction l as [|c l IH]; intros cur w Hw; cbn [app tokens_acc].
  - rewrite <- (app_nil_r w). apply tokens_acc_trail. split; [done|reflexivity].
  - destruct (is_nul c); [done|]. destruct (strchr WHITESPACE c); by rewrite IH.
Qed.

Lemma tokens_leading (w l : list ascii) :
  Forall (fun c => is_space c = true) w -> tokens (w ++ l) = tokens l.
Proof.
  intros Hw. unfold tokens. destruct w as [|c w]; [done|].
  by rewrite tokens_acc_space.
Qed.

(** X9: whitespace in front of a line and behind it changes nothing:
    [runcmd] does the same on the line with and without it. *)
Theorem runcmd_ignores_outer_whitespace cmds (w l w' : list ascii) tf :
  Forall (fun c => is_space c = true) w ->
  Forall (fun c => is_space c = true) w' ->
  runcmd cmds (w ++ l ++ w') tf = runcmd cmds l tf.
Proof.
  intros Hw Hw'. rewrite !runcmd_tokens, tokens_leading by done.
  unfold tokens. by rewrite tokens_acc_trailing.
Qed.

End DispatchProperties.

(** ** The registered commands, line by line *)

Section RegisteredLines.

Context {Trapframe : Type}.
Variable K : Kernel.
Implicit Types (tf : option Trapframe).

(** X3: a line of at most 15 tokens whose first token is "help" prints
    one line per entry of the registered table, with the name and the
    description of the entry, in registration order, whatever follows the
    command name; it returns 0. *)
Theorem help_lists_registered_commands (fuel : nat) (buf t0 : list ascii)
    (rest : list (list ascii)) tf :
  tokens buf = t0 :: rest -> (length rest < 15)%nat ->
  string_of_list_ascii t0 = "help" ->
  runcmd (commands K fuel) buf tf
  = Some (map (fun c : @Command Trapframe =>
                 Cprintf fmt_help [ArgStr (name c); ArgStr (desc c)])
              (commands K fuel), 0).
Proof.
  intros Htok Hlen Hname. rewrite (runcmd_head_token _ _ _ _ _ Htok Hlen).
  by apply (lookup_cmd_first_match []).
Qed.

(** X2: a line of at most 15 tokens whose first token is "showmappings"
    and which has not exactly two more tokens is answered with the message
    "error: showmappings needs 2 parameters" alone: no argument is parsed,
    the page table is not queried, and the return value is 0. *)
Theorem showmappings_usage_error (fuel : nat) (buf t0 : list ascii)
    (rest : list (list ascii)) tf :
  tokens buf = t0 :: rest -> (length rest < 15)%nat ->
  string_of_list_ascii t0 = "showmappings" ->
  length rest <> 2%nat ->
  runcmd (commands K fuel) buf tf = Some ([Cprintf fmt_needs_2 []], 0).
Proof.
  intros Htok Hlen Hname Hargs. rewrite (runcmd_head_token _ _ _ _ _ Htok Hlen).
  pose proof (lookup_cmd_first_match
                [ {| name := "help"; desc := "Display this list of commands";
                     func := mon_help |};
                  {| name := "kerninfo";
                     desc := "Display information about the kernel";
                     func := mon_kerninfo K |};
                  {| name := "backtrace"; desc := "Display the stack backtrace";
                     func := mon_backtrace K fuel |} ]
                []
                {| name := "showmappings"; desc := "Show the mappings info";
                   func := mon_showmappings K |}
                (Z.of_nat (S (length rest)))
                (map string_of_list_ascii (t0 :: rest)) tf) as Hlookup.
  cbn [app] in Hlookup. unfold commands.
  rewrite Hlookup; [|repeat constructor; discriminate|exact Hname].
  cbn [func]. unfold mon_showmappings.
  replace (Z.of_nat (S (length rest)) =? 3) with false
    by (symmetry; apply Z.eqb_neq; lia).
  reflexivity.
Qed.

(** X18: every entry of the registered table can be reached by its
    name: a line of at most 15 tokens whose first token is the name of an
    entry runs the handler of that very entry, with the tokens as
    arguments (no entry is shadowed by an earlier one of the same name). *)
Theorem registered_commands_reachable (fuel : nat) (c : @Command Trapframe)
    (buf t0 : list ascii) (rest : list (list ascii)) tf :
  In c (commands K fuel) ->
  tokens buf = t0 :: rest -> (length rest < 15)%nat ->
  string_of_list_ascii t0 = name c ->
  runcmd (commands K fuel) buf tf
  = func c (Z.of_nat (S (length rest)))
         (map string_of_list_ascii (t0 :: rest)) tf.
Proof.
  intros Hin Htok Hlen Hname. rewrite (runcmd_head_token _ _ _ _ _ Htok Hlen).
  unfold commands in *. cbn [lookup_cmd map nth name func].
  destruct Hin as [<-|[<-|[<-|[<-|[]]]]]; cbn [name] in Hname;
    rewrite Hname; reflexivity.
Qed.

(** X17: no registered command looks at the trap frame: [runcmd] over the
    registered table does the same whether or not one is passed. *)
Theorem registered_commands_ignore_trapframe (fuel : nat) (buf : list ascii)
    tf tf' :
  runcmd (commands K fuel) buf tf = runcmd (commands K fuel) buf tf'.
Proof.
  rewrite !runcmd_tokens. case_leb; [|done].
  unfold run_tokens. destruct (tokens buf) as [|t0 rest]; [done|].
  unfold commands. cbn [lookup_cmd name func].
  repeat (match goal with |- context [String.eqb ?a ?b] =>
            destruct (String.eqb a b) end; [reflexivity|]).
  reflexivity.
Qed.

End RegisteredLines.

(** ** The parsing loop and its buffer *)

Lemma carve_rel_spaces (w : list ascii) :
  Forall (fun c => is_space c = true) w ->
  Forall2 carve_rel w (replicate (length w) NUL).
Proof.
  induction 1 as [|c w Hc Hw IH]; [constructor|].
  cbn [length replicate]. constructor; [by right|done].
Qed.

Lemma carve_rel_same (t : list ascii) : Forall2 carve_rel t t.
Proof. induction t as [|c t IH]; constructor; [by left|done]. Qed.

Lemma carve_rel_line (items : list item) : forall (first : bool) (wn tail : list ascii),
  items_ok first items -> trail_ok wn tail ->
  Forall2 carve_rel (line_of items (wn ++ tail))
          (carved_of items (replicate (length wn) NUL ++ tail)).
Proof.
  induction items as [|[w t] items IH]; intros first wn tail Hit [Hwn Htail].
  - unfold line_of, carved_of. cbn [flat_map app].
    apply Forall2_app; [by apply carve_rel_spaces|apply carve_rel_same].
  - destruct Hit as [(Hw & _) Hrest]. cbn [fst] in Hw.
    rewrite line_of_cons, carved_of_cons. cbn [fst snd].
    apply Forall2_app; [by apply carve_rel_spaces|].
    apply Forall2_app; [apply carve_rel_same|]. by eapply IH.
Qed.

(** X6: when the parsing loop of [runcmd] runs to its end, the buffer it
    leaves has the length of the line, and each byte of it is the byte of
    the line, or [NUL] where the line had a whitespace byte: the loop
    never changes a byte of an argument and never writes behind the
    line. *)
Theorem parse_args_carves_whitespace_only (buf b : list ascii) (argc : Z)
    (argv : list nat) :
  parse_args (S (length buf)) buf 0 0 [] = Some (Args b argc argv) ->
  length b = length buf
  /\ forall (i : nat) (c : ascii),
       buf !! i = Some c ->
       b !! i = Some c \/ (is_space c = true /\ b !! i = Some NUL).
Proof.
  destruct (line_decompose buf) as (items & wn & tail & Hit & Htr & ->).
  rewrite parse_args_layout by done. case_leb; [|done].
  intros [= <- _ _]. pose proof (carve_rel_line items true wn tail Hit Htr) as Hrel.
  split; [symmetry; by eapply Forall2_length|].
  intros i c Hi. destruct (Forall2_lookup_l _ _ _ _ _ Hrel Hi) as (d & Hd & Hcd).
  destruct Hcd as [->|[Hsp ->]]; [by left|by right].
Qed.

Lemma deref_word_lt (b : list ascii) (p : nat) :
  is_word (deref b p) = true -> (p < length b)%nat.
Proof.
  intros Hw. destruct (decide (p < length b)%nat) as [|Hge]; [done|].
  unfold deref in Hw. rewrite lookup_ge_None_2 in Hw by lia. discriminate.
Qed.

Lemma offsets_at_tokens (items : list item) : forall (first : bool)
    (pre trail : list ascii),
  items_ok first items ->
  Forall (fun p => is_word (deref (pre ++ line_of items trail) p) = true)
         (offsets (length pre) items).
Proof.
  induction items as [|[w t] items IH]; intros first pre trail Hit; [constructor|].
  destruct Hit as [(_ & Ht & Hne & _) Hrest]. cbn [fst snd] in Ht, Hne.
  rewrite line_of_cons. cbn [fst snd offsets]. constructor.
  - rewrite (app_assoc pre).
    replace (length pre + length w)%nat with (length (pre ++ w))
      by (by rewrite length_app).
    rewrite deref_app_length. destruct t as [|c t]; [done|]. by inversion Ht.
  - rewrite (app_assoc pre), (app_assoc _ t).
    replace (length pre + length w + length t)%nat
      with (length ((pre ++ w) ++ t)) by (rewrite !length_app; lia).
    by eapply IH.
Qed.

Lemma offsets_lower_bound (items : list item) : forall (base : nat),
  Forall (fun p => (base <= p)%nat) (offsets base items).
Proof.
  induction items as [|[w t] items IH]; intros base; [constructor|].
  cbn [offsets fst snd]. constructor; [lia|].
  eapply Forall_impl; [apply IH|]. intros p Hp. simpl in Hp. lia.
Qed.

Lemma offsets_ascending (items : list item) : forall (first : bool) (base : nat),
  items_ok first items -> StronglySorted lt (offsets base items).
Proof.
  induction items as [|[w t] items IH]; intros first base Hit; [constructor|].
  destruct Hit as [(_ & _ & Hne & _) Hrest]. cbn [fst snd] in Hne.
  cbn [offsets fst snd]. constructor; [by eapply IH|].
  eapply Forall_impl; [apply offsets_lower_bound|].
  intros p Hp. simpl in Hp. destruct t; [done|]. simpl in Hp. lia.
Qed.

(** X7: the parsing loop of [runcmd] ends within [S (length buf)] rounds
    on every line.  When it runs to its end it has stored at most
    [MAXARGS - 1] pointers, so that the closing [argv[argc] = 0] stays
    inside [argv]; the pointers ascend strictly, and each one points
    inside the line, at a byte of the line that is neither whitespace nor
    [NUL]. *)
Theorem parse_args_in_bounds (buf : list ascii) :
  parse_args (S (length buf)) buf 0 0 [] <> None
  /\ forall (b : list ascii) (argc : Z) (argv : list nat),
       parse_args (S (length buf)) buf 0 0 [] = Some (Args b argc argv) ->
       0 <= argc <= MAXARGS - 1
       /\ StronglySorted lt argv
       /\ Forall (fun p => (p < length buf)%nat /\ is_word (deref buf p) = true)
                 argv.
Proof.
  destruct (line_decompose buf) as (items & wn & tail & Hit & Htr & ->).
  rewrite parse_args_layout by done. case_leb; [|by split].
  split; [done|]. intros b argc argv [= <- <- <-].
  split; [unfold MAXARGS; lia|]. split; [by eapply offsets_ascending|].
  pose proof (offsets_at_tokens items true [] (wn ++ tail) Hit) as Hw.
  cbn [app length] in Hw.
  eapply Forall_impl; [exact Hw|]. intros p Hp. cbn beta in Hp.
  split; [by apply deref_word_lt|done].
Qed.

(** ** More on backtrace *)

Section BacktraceProperties.

Context {Trapframe : Type}.
Variable K : Kernel.
Implicit Types (tf : option Trapframe) (argv : list string).

Lemma backtrace_loop_returns (fuel : nat) : forall (ebp : Z) (t : trace),
  backtrace_loop K fuel ebp = Some t ->
  exists n : nat, (n < fuel)%nat /\ chain_ends K n ebp.
Proof.
  induction fuel as [|fuel IH]; intros ebp t; cbn [backtrace_loop]; [done|].
  destruct (Z.eqb_spec ebp 0) as [->|Hne].
  - intros _. exists 0%nat. split; [lia|reflexivity].
  - destruct (backtrace_loop K fuel (load K ebp)) as [t'|] eqn:Hloop; [|done].
    intros _. destruct (IH _ _ Hloop) as (n & Hn & Hchain).
    exists (S n). split; [lia|]. by split.
Qed.

Lemma chain_ends_unique (n : nat) : forall (m : nat) (ebp : Z),
  chain_ends K n ebp -> chain_ends K m ebp -> n = m.
Proof.
  induction n as [|n IH]; intros [|m] ebp Hn Hm; simpl in *; try done.
  - by destruct Hm.
  - by destruct Hn.
  - f_equal. eapply IH; [apply Hn|apply Hm].
Qed.

(** X10: [mon_backtrace] returns exactly when following the saved frame
    pointers from the current frame pointer reaches zero: on a chain that
    never does (a cycle, say) no number of loop rounds is enough.  When it
    returns, what it prints and returns is the same whatever the bound on
    the rounds was. *)
Theorem backtrace_returns_iff_chain_ends (argc : Z) argv tf :
  ((exists (fuel : nat) (r : trace * Z),
       mon_backtrace K fuel argc argv tf = Some r)
   <-> exists n : nat, chain_ends K n (wrap32 (read_ebp K)))
  /\ forall (fuel fuel' : nat) (r r' : trace * Z),
       mon_backtrace K fuel argc argv tf = Some r ->
       mon_backtrace K fuel' argc argv tf = Some r' -> r = r'.
Proof.
  assert (Hret : forall fuel r, mon_backtrace K fuel argc argv tf = Some r ->
            exists n, (n < fuel)%nat /\ chain_ends K n (wrap32 (read_ebp K))).
  { intros fuel r. unfold mon_backtrace.
    destruct (backtrace_loop K fuel _) as [t|] eqn:Hloop; [|done].
    intros _. by eapply backtrace_loop_returns. }
  split; [split|].
  - intros (fuel & r & Hr). destruct (Hret _ _ Hr) as (n & _ & Hn). eauto.
  - intros [n Hn]. exists (S n). eexists.
    apply (mon_backtrace_chain K n); [done|lia].
  - intros fuel fuel' r r' Hr Hr'.
    destruct (Hret _ _ Hr) as (n & Hlt & Hn).
    destruct (Hret _ _ Hr') as (n' & Hlt' & Hn').
    assert (n = n') as <- by (by eapply chain_ends_unique).
    rewrite (mon_backtrace_chain K n) in Hr, Hr' by done. congruence.
Qed.

Lemma resolver_queries_app (t1 t2 : trace) :
  resolver_queries (t1 ++ t2) = resolver_queries t1 ++ resolver_queries t2.
Proof. unfold resolver_queries. apply flat_map_app. Qed.

Lemma symbol_lines_quiet (eip : Z) :
  resolver_queries (symbol_lines K eip) = [] /\ walks (symbol_lines K eip) = [].
Proof.
  unfold symbol_lines. destruct (debuginfo_eip K eip) as [rc info].
  by destruct (rc =? 0).
Qed.

Lemma frame_body_queries (ebp : Z) :
  resolver_queries (frame_body K ebp) = [load K (ebp + 4)]
  /\ walks (frame_body K ebp) = [].
Proof.
  unfold frame_body.
  rewrite !resolver_queries_app, !walks_app.
  destruct (symbol_lines_quiet (load K (ebp + 4))) as [-> ->]. by split.
Qed.

(** X11: on a chain of [n] frames [mon_backtrace] asks the symbol
    resolver once per frame, in chain order, each time with the return
    address it read at ebp+4 of that frame; it never walks the page
    table. *)
Theorem backtrace_queries_resolver_per_frame (n fuel : nat) (argc : Z) argv tf :
  chain_ends K n (wrap32 (read_ebp K)) -> (n < fuel)%nat ->
  exists t : trace,
    mon_backtrace K fuel argc argv tf = Some (t, 0)
    /\ resolver_queries t
       = map (fun ebp => load K (ebp + 4)) (frames K n (wrap32 (read_ebp K)))
    /\ walks t = [].
Proof.
  intros Hchain Hfuel. eexists. split; [by apply (mon_backtrace_chain K n)|].
  assert (Hq : forall t, resolver_queries (Cprintf fmt_backtrace_head [] :: t)
                         = resolver_queries t) by reflexivity.
  assert (Hw : forall t, walks (Cprintf fmt_backtrace_head [] :: t) = walks t)
    by reflexivity.
  rewrite Hq, Hw. clear Hq Hw Hchain.
  generalize (wrap32 (read_ebp K)) as ebp.
  induction n as [|n IH]; intros ebp; [done|].
  cbn [frames flat_map map]. rewrite resolver_queries_app, walks_app.
  destruct (frame_body_queries ebp) as [-> ->].
  destruct (IH ltac:(lia) (load K ebp)) as [-> ->]. by split.
Qed.

End BacktraceProperties.

(** ** More on showmappings and kerninfo *)

Lemma land_1_mod (a : Z) : Z.land a 1 = a mod 2.
Proof. change 1 with (Z.ones 1) at 1. by rewrite Z.land_ones by lia. Qed.

Lemma odd_mod (a : Z) : a mod 2 = Z.b2z (Z.odd a).
Proof. by rewrite <- Z.bit0_odd, Z.bit0_mod. Qed.

Lemma pte_addr_div (pte : Z) : PTE_ADDR pte = PGSIZE * (pte / PGSIZE).
Proof.
  unfold PTE_ADDR, PGSIZE. rewrite <- Z.ldiff_land.
  change 4095 with (Z.ones 12).
  rewrite Z.ldiff_ones_r, Z.shiftl_mul_pow2, Z.shiftr_div_pow2 by lia.
  change (2 ^ 12) with 4096. lia.
Qed.

Lemma pte_flag_bit (pte : Z) (k : Z) :
  0 <= k -> Z.shiftr (Z.land pte (2 ^ k)) k = (pte / 2 ^ k) mod 2.
Proof.
  intros Hk. rewrite Z.shiftr_land, !Z.shiftr_div_pow2 by lia.
  rewrite Z.div_same by lia. apply land_1_mod.
Qed.

Lemma to_int32_small (z : Z) : 0 <= z < 2 ^ 31 -> to_int32 z = z.
Proof.
  intros Hz. unfold to_int32. cbn zeta.
  change (2 ^ 31) with 2147483648 in *.
  rewrite wrap32_small by (change (2 ^ 32) with 4294967296; lia).
  by replace (z <? 2147483648) with true by (symmetry; apply Z.ltb_lt; lia).
Qed.

(** Without wrap-around [ROUNDUP] yields the next multiple. *)
Lemma ROUNDUP_small (a n : Z) :
  0 < n < 2 ^ 32 -> 0 <= a -> a + n - 1 < 2 ^ 32 ->
  ROUNDUP a n = n * ((a + n - 1) / n).
Proof.
  intros Hn Ha Hfit. unfold ROUNDUP, ROUNDDOWN. cbn zeta.
  assert (Hsmall : forall z, 0 <= z < 4294967296 -> wrap32 z = z)
    by (intros z Hz; by apply wrap32_small).
  change (2 ^ 32) with 4294967296 in Hfit, Hn.
  rewrite (Hsmall a), (Hsmall n) by lia.
  rewrite !(Hsmall (a + n - 1)) by lia.
  pose proof (Z.div_mod (a + n - 1) n ltac:(lia)) as Hdm.
  pose proof (Z.mod_pos_bound (a + n - 1) n ltac:(lia)) as Hmod.
  rewrite Hsmall by lia. lia.
Qed.

Lemma pte_w_bit (pte : Z) : Z.shiftr (Z.land pte PTE_W) 1 = (pte / 2) mod 2.
Proof. exact (pte_flag_bit pte 1 ltac:(lia)). Qed.

Lemma pte_u_bit (pte : Z) : Z.shiftr (Z.land pte PTE_U) 2 = (pte / 4) mod 2.
Proof. exact (pte_flag_bit pte 2 ltac:(lia)). Qed.

Section ShowmappingsProperties.

Context {Trapframe : Type}.
Variable K : Kernel.
Implicit Types (tf : option Trapframe) (argv : list string).

(** X12: for the address of one page, [mon_showmappings] asks
    [pgdir_walk] without the create flag and prints one line.  When there
    is no entry, or the entry's lowest bit (present) is clear, the line
    says that the address is not mapped.  Otherwise it shows the address,
    the entry with its low twelve bits cleared as the physical address,
    1 for the present bit, and bits 1 and 2 of the entry as the writable
    and user bits. *)
Theorem show_page_decodes_entry (va : Z) :
  (pgdir_walk K va 0 = None ->
   show_page K va = [PgdirWalk va 0; Cprintf fmt_not_mapped [ArgInt va]])
  /\ (forall pte : Z,
         pgdir_walk K va 0 = Some pte -> Z.odd pte = false ->
         show_page K va = [PgdirWalk va 0; Cprintf fmt_not_mapped [ArgInt va]])
  /\ (forall pte : Z,
         pgdir_walk K va 0 = Some pte -> Z.odd pte = true ->
         show_page K va
         = [ PgdirWalk va 0;
             Cprintf fmt_mapped
                     [ ArgInt va; ArgInt (PGSIZE * (pte / PGSIZE)); ArgInt 1;
                       ArgInt ((pte / 2) mod 2); ArgInt ((pte / 4) mod 2) ] ]).
Proof.
  unfold show_page. split; [|split].
  - by intros ->.
  - intros pte -> Hodd. unfold PTE_P.
    rewrite land_1_mod, odd_mod, Hodd. reflexivity.
  - intros pte -> Hodd. rewrite pte_w_bit, pte_u_bit, pte_addr_div.
    unfold PTE_P. rewrite land_1_mod, odd_mod, Hodd. reflexivity.
Qed.




(** X14: with the kernel linked inside [KERNBASE, 2^32) and [entry] not
    above [end], [mon_kerninfo] prints for each of [entry], [etext],
    [edata] and [end] the address minus [KERNBASE] as the physical
    address, and as footprint the distance from [entry] to [end] in
    kilobytes, rounded up. *)
Theorem kerninfo_reports_layout (argc : Z) argv tf :
  (forall s : Z, In s [sym_entry K; sym_etext K; sym_edata K; sym_end K] ->
                 KERNBASE <= s < 2 ^ 32) ->
  sym_entry K <= sym_end K ->
  exists (t : trace) (head_line start_line : event),
    mon_kerninfo K argc argv tf = Some (t, 0)
    /\ t = [ head_line; start_line;
             Cprintf ("  entry  %08x (virt)  %08x (phys)" ++ nl)%string
                     [ArgInt (sym_entry K); ArgInt (sym_entry K - KERNBASE)];
             Cprintf ("  etext  %08x (virt)  %08x (phys)" ++ nl)%string
                     [ArgInt (sym_etext K); ArgInt (sym_etext K - KERNBASE)];
             Cprintf ("  edata  %08x (virt)  %08x (phys)" ++ nl)%string
                     [ArgInt (sym_edata K); ArgInt (sym_edata K - KERNBASE)];
             Cprintf ("  end    %08x (virt)  %08x (phys)" ++ nl)%string
                     [ArgInt (sym_end K); ArgInt (sym_end K - KERNBASE)];
             Cprintf fmt_footprint
                     [ArgInt ((sym_end K - sym_entry K + 1023) / 1024)] ].
Proof.
  intros Hsym Hle.
  pose proof (Hsym (sym_entry K) ltac:(simpl; tauto)) as Hentry.
  pose proof (Hsym (sym_etext K) ltac:(simpl; tauto)) as Hetext.
  pose proof (Hsym (sym_edata K) ltac:(simpl; tauto)) as Hedata.
  pose proof (Hsym (sym_end K) ltac:(simpl; tauto)) as Hend.
  unfold KERNBASE in *. change (2 ^ 32) with 4294967296 in *.
  eexists _, _, _. split; [reflexivity|].
  assert (Hphys : forall s, 4026531840 <= s < 4294967296 ->
                            wrap32 (s - 4026531840) = s - 4026531840).
  { intros s Hs. apply wrap32_small. lia. }
  rewrite !Hphys by done.
  assert (Hfoot : Z.quot (to_int32 (ROUNDUP (to_int32 (sym_end K - sym_entry K)) 1024))
                         1024
                  = (sym_end K - sym_entry K + 1023) / 1024).
  { set (d := sym_end K - sym_entry K).
    assert (Hd : 0 <= d < 268435456) by (subst d; lia).
    pose proof (Z.div_mod (d + 1023) 1024 ltac:(lia)) as Hdm.
    pose proof (Z.mod_pos_bound (d + 1023) 1024 ltac:(lia)) as Hmod.
    rewrite (to_int32_small d) by (change (2 ^ 31) with 2147483648; lia).
    rewrite ROUNDUP_small by (try change (2 ^ 32) with 4294967296; lia).
    replace (d + 1024 - 1) with (d + 1023) by lia.
    rewrite to_int32_small by (change (2 ^ 31) with 2147483648; lia).
    rewrite Z.quot_div_nonneg by lia.
    rewrite Z.mul_comm. apply Z.div_mul. lia. }
  rewrite Hfoot. reflexivity.
Qed.

End ShowmappingsProperties.

(** ** The trace of the read loop *)

Section ReadLoopTrace.

Context {Trapframe : Type}.
Variable K : Kernel.
Implicit Types (cmds : list (@Command Trapframe)) (tf : option Trapframe).

Lemma line_trace_continues cmds tf (rounds n : nat) :
  line_continues K cmds tf n ->
  monitor_loop K cmds tf (S rounds) n
  = emit (line_trace K cmds tf n) (monitor_loop K cmds tf rounds (S n)).
Proof.
  unfold line_trace. cbn [monitor_loop].
  intros [Hnull|(buf & t & r & Hline & Hrun & Hr)].
  - by rewrite Hnull.
  - rewrite Hline, Hrun.
    by replace (r <? 0) with false by (symmetry; apply Z.ltb_ge; lia).
Qed.

Lemma monitor_loop_reading cmds tf (rounds : nat) : forall n : nat,
  (forall j : nat, (n <= j < n + rounds)%nat -> line_continues K cmds tf j) ->
  monitor_loop K cmds tf rounds n
  = Reading (flat_map (line_trace K cmds tf) (seq n rounds)).
Proof.
  induction rounds as [|rounds IH]; intros n Hcont; [done|].
  rewrite line_trace_continues by (apply Hcont; lia).
  rewrite IH by (intros j Hj; apply Hcont; lia). reflexivity.
Qed.

Lemma monitor_loop_exiting cmds tf (d : nat) : forall (n rounds : nat),
  line_exits K cmds tf (n + d) ->
  (forall j : nat, (n <= j < n + d)%nat -> line_continues K cmds tf j) ->
  (d < rounds)%nat ->
  monitor_loop K cmds tf rounds n
  = Exited (flat_map (line_trace K cmds tf) (seq n (S d))).
Proof.
  induction d as [|d IH]; intros n rounds Hexit Hcont Hrounds;
    (destruct rounds as [|rounds]; [lia|]).
  - rewrite Nat.add_0_r in Hexit.
    destruct Hexit as (buf & t & r & Hline & Hrun & Hr).
    cbn [monitor_loop seq flat_map]. unfold line_trace.
    rewrite Hline, Hrun, app_nil_r.
    by replace (r <? 0) with true by (symmetry; apply Z.ltb_lt; lia).
  - rewrite line_trace_continues by (apply Hcont; lia).
    rewrite (IH (S n) rounds); [reflexivity| | |lia].
    + by replace (S n + d)%nat with (n + S d)%nat by lia.
    + intros j Hj. apply Hcont. lia.
Qed.

(** X15: as long as every line lets the loop continue (it is a null
    line, or its processing returns zero or a positive value), [monitor]
    keeps reading: after any number of rounds its trace is the two
    greeting lines, the trap frame when one was passed, and then, line
    after line in reading order, the prompt followed by the output of the
    line. *)
Theorem monitor_reading_trace cmds tf (rounds : nat) :
  (forall j : nat, (j < rounds)%nat -> line_continues K cmds tf j) ->
  monitor K cmds tf rounds
  = Reading ([Cprintf fmt_welcome []; Cprintf fmt_type_help []]
             ++ match tf with Some _ => [PrintTrapframe] | None => [] end
             ++ flat_map (line_trace K cmds tf) (seq 0 rounds)).
Proof.
  intros Hcont. unfold monitor.
  rewrite monitor_loop_reading by (intros j Hj; apply Hcont; lia).
  cbn [emit]. by rewrite <- !app_assoc.
Qed.

(** X16: when line [k] is the first whose processing returns a negative
    value, [monitor] leaves its loop right after that line: with any
    number of rounds above [k] its trace is the greeting, the trap frame
    when one was passed, and the prompts and outputs of the lines 0 to
    [k]; no later line is read. *)
Theorem monitor_exit_trace cmds tf (k rounds : nat) :
  line_exits K cmds tf k ->
  (forall j : nat, (j < k)%nat -> line_continues K cmds tf j) ->
  (k < rounds)%nat ->
  monitor K cmds tf rounds
  = Exited ([Cprintf fmt_welcome []; Cprintf fmt_type_help []]
            ++ match tf with Some _ => [PrintTrapframe] | None => [] end
            ++ flat_map (line_trace K cmds tf) (seq 0 (S k))).
Proof.
  intros Hexit Hcont Hrounds. unfold monitor.
  rewrite (monitor_loop_exiting cmds tf k 0 rounds Hexit) by
    (done || (intros j Hj; apply Hcont; lia)).
  cbn [emit]. by rewrite <- !app_assoc.
Qed.

End ReadLoopTrace.

(** ** The further properties on the sample kernel *)

(** X1 on "showmappings 0x1000 0x2000": two queries, a page apart. *)
Lemma showmappings_small_span_witness :
  exists t : trace,
    mon_showmappings sample_kernel 3 ["showmappings"; "0x1000"; "0x2000"]
                     (@None unit) = Some (t, 0)
    /\ walks t = [4096; 8192].
Proof.
  destruct (showmappings_small_span (Trapframe := unit) sample_kernel
              ["showmappings"; "0x1000"; "0x2000"] None)
    as (t & Hrun & Hwalks & _).
  - vm_compute. discriminate.
  - vm_compute. discriminate.
  - exists t. split; [exact Hrun|]. rewrite Hwalks. vm_compute. reflexivity.
Defined.

(** X2 on "showmappings 0x1000". *)
Lemma showmappings_usage_error_witness :
  runcmd (commands sample_kernel 0) (list_ascii_of_string "showmappings 0x1000")
         (@None unit)
  = Some ([Cprintf fmt_needs_2 []], 0).
Proof.
  apply (showmappings_usage_error (Trapframe := unit) sample_kernel 0
           (list_ascii_of_string "showmappings 0x1000")
           (list_ascii_of_string "showmappings")
           [list_ascii_of_string "0x1000"] None).
  - vm_compute. reflexivity.
  - simpl. lia.
  - reflexivity.
  - simpl. lia.
Defined.

(** X3 on "help me". *)
Lemma help_lists_registered_commands_witness :
  runcmd (commands sample_kernel 0) (list_ascii_of_string "help me") (@None unit)
  = Some (map (fun c : @Command unit =>
                 Cprintf fmt_help [ArgStr (name c); ArgStr (desc c)])
              (commands sample_kernel 0), 0).
Proof.
  apply (help_lists_registered_commands (Trapframe := unit) sample_kernel 0
           (list_ascii_of_string "help me") (list_ascii_of_string "help")
           [list_ascii_of_string "me"] None).
  - vm_compute. reflexivity.
  - simpl. lia.
  - reflexivity.
Defined.

(** X4 on "quit now" over the table with the "quit" command. *)
Lemma runcmd_dispatches_first_match_witness :
  runcmd quit_table (list_ascii_of_string "quit now") None = Some ([], -1).
Proof.
  apply (runcmd_dispatches_first_match (Trapframe := unit) [] []
           {| name := "quit"; desc := "Leave the monitor";
              func := fun _ _ _ => Some ([], -1) |}
           (list_ascii_of_string "quit now") (list_ascii_of_string "quit")
           [list_ascii_of_string "now"] None).
  - vm_compute. reflexivity.
  - simpl. lia.
  - reflexivity.
  - constructor.
Defined.

(** X5 on "bogus 1". *)
Lemma runcmd_unknown_command_witness :
  runcmd (commands sample_kernel 0) (list_ascii_of_string "bogus 1") (@None unit)
  = Some ([Cprintf fmt_unknown [ArgStr "bogus"]], 0).
Proof.
  apply (runcmd_unknown_command (Trapframe := unit) (commands sample_kernel 0)
           (list_ascii_of_string "bogus 1") (list_ascii_of_string "bogus")
           [list_ascii_of_string "1"] None).
  - vm_compute. reflexivity.
  - simpl. lia.
  - repeat constructor; discriminate.
Defined.

(** X6 on " a b": the two blanks become [NUL]. *)
Lemma parse_args_carves_whitespace_only_witness :
  exists (b : list ascii) (argc : Z) (argv : list nat),
    parse_args 5 (list_ascii_of_string " a b") 0 0 [] = Some (Args b argc argv)
    /\ length b = 4%nat.
Proof.
  eexists _, _, _. split; [vm_compute; reflexivity|].
  refine (proj1 (parse_args_carves_whitespace_only
                   (list_ascii_of_string " a b") _ _ _ _)).
  vm_compute. reflexivity.
Defined.

(** X9 on "  help " against "help". *)
Lemma runcmd_ignores_outer_whitespace_witness :
  runcmd (commands sample_kernel 0)
         (list_ascii_of_string "  " ++ list_ascii_of_string "help"
            ++ list_ascii_of_string " ") (@None unit)
  = runcmd (commands sample_kernel 0) (list_ascii_of_string "help") (@None unit).
Proof.
  apply (runcmd_ignores_outer_whitespace (Trapframe := unit));
    repeat constructor.
Defined.

(** X11 on the sample stack. *)
Lemma backtrace_queries_resolver_per_frame_witness :
  exists t : trace,
    mon_backtrace sample_kernel 3 1 ["backtrace"] (@None unit) = Some (t, 0)
    /\ resolver_queries t = [1048646; 1048838].
Proof.
  destruct (backtrace_queries_resolver_per_frame (Trapframe := unit) sample_kernel
              2 3 1 ["backtrace"] None sample_chain ltac:(lia))
    as (t & Hrun & Hq & _).
  exists t. split; [exact Hrun|]. rewrite Hq. vm_compute. reflexivity.
Defined.

(** X14 on the sample kernel: 80 KB. *)
Lemma kerninfo_reports_layout_witness :
  exists t : trace,
    mon_kerninfo sample_kernel 1 ["kerninfo"] (@None unit) = Some (t, 0)
    /\ List.last t (Cprintf "" []) = Cprintf fmt_footprint [ArgInt 80].
Proof.
  destruct (kerninfo_reports_layout (Trapframe := unit) sample_kernel
              1 ["kerninfo"] None)
    as (t & head_line & start_line & Hrun & Ht).
  - intros s [<-|[<-|[<-|[<-|[]]]]]; vm_compute; split; (discriminate || reflexivity).
  - vm_compute. discriminate.
  - exists t. split; [exact Hrun|]. rewrite Ht. vm_compute. reflexivity.
Defined.

(** The lines of the sample input let the registered table read on. *)
Lemma sample_lines_continue (j : nat) :
  line_continues sample_kernel (commands sample_kernel 3) (@None unit) j.
Proof.
  destruct j as [|[|[|[|j]]]].
  - right. eexists _, _, 0. split; [reflexivity|]. split; [vm_compute; reflexivity|lia].
  - left. reflexivity.
  - right. eexists _, _, 0. split; [reflexivity|]. split; [vm_compute; reflexivity|lia].
  - right. eexists _, _, 0. split; [reflexivity|]. split; [vm_compute; reflexivity|lia].
  - left. reflexivity.
Defined.

(** X15 on the sample input and the registered table. *)
Lemma monitor_reading_trace_witness :
  exists t : trace,
    monitor sample_kernel (commands sample_kernel 3) (@None unit) 5 = Reading t.
Proof.
  eexists.
  apply (monitor_reading_trace (Trapframe := unit) sample_kernel
           (commands sample_kernel 3) None 5).
  intros j _. apply sample_lines_continue.
Defined.

(** X16 on the sample input and the table with "quit". *)
Lemma monitor_exit_trace_witness :
  exists t : trace, monitor sample_kernel quit_table None 4 = Exited t.
Proof.
  eexists.
  apply (monitor_exit_trace (Trapframe := unit) sample_kernel quit_table None 3 4).
  - exists (list_ascii_of_string "quit"), [], (-1).
    split; [reflexivity|]. split; [vm_compute; reflexivity|lia].
  - intros [|[|[|j]]] Hj; [ | | | lia].
    + right. eexists _, _, 0. split; [reflexivity|]. split; [vm_compute; reflexivity|lia].
    + left. reflexivity.
    + right. eexists _, _, 0. split; [reflexivity|]. split; [vm_compute; reflexivity|lia].
  - lia.
Defined.

(** X18 on "backtrace" over the registered table. *)
Lemma registered_commands_reachable_witness :
  runcmd (commands sample_kernel 3) (list_ascii_of_string "backtrace") (@None unit)
  = mon_backtrace sample_kernel 3 1 ["backtrace"] (@None unit).
Proof.
  apply (registered_commands_reachable (Trapframe := unit) sample_kernel 3
           {| name := "backtrace"; desc := "Display the stack backtrace";
              func := mon_backtrace sample_kernel 3 |}
           (list_ascii_of_string "backtrace") (list_ascii_of_string "backtrace")
           [] None).
  - right. right. left. reflexivity.
  - vm_compute. reflexivity.
  - simpl. lia.
  - reflexivity.
Defined.
